(** * SportBot backend: the Langroid agent layer ([app/agents/base_agents.py])

    A shallow embedding of the tools ([ProductSearchTool],
    [PromotionSearchTool], [UserHistoryTool]) and of the agents
    ([KnowledgeAgent], [SalesAgent], [AnalyticsAgent], [MainBaekhoAgent]),
    followed by the properties of the routing, the keyword tables, the
    metrics counters and the error handling. *)

From Stdlib Require Import ZArith NArith List String Ascii Lia.
From Stdlib.Strings Require Import Byte.
From Stdlib Require Import PrimFloat FloatClass DecimalString.
From stdpp Require Import base option list gmap fin_maps.
Import ListNotations.

Set Warnings "-register-all".

Local Open Scope Z_scope.

(** ** Python text *)

(** A Python [str] is a sequence of Unicode code points; [len], slicing and
    [in] all count code points. *)
Abbreviation pystr := (list N).

(** The source file is UTF-8. A literal ["..."%py] is read, when the file
    is parsed, into the code points Python sees: [Utf8.decode] turns the
    bytes of the literal into code points. *)
Module Utf8.

Inductive codes : Set :=
| cnil
| ccons (c : N) (rest : codes).

Fixpoint decode (bs : list byte) : codes :=
  match bs with
  | [] => cnil
  | x0 :: r0 =>
    let b0 := Byte.to_N x0 in
    if (b0 <? 128)%N then ccons b0 (decode r0)
    else match r0 with
    | [] => cnil
    | x1 :: r1 =>
      let b1 := Byte.to_N x1 in
      if (b0 <? 224)%N
      then ccons ((b0 - 192) * 64 + (b1 - 128))%N (decode r1)
      else match r1 with
      | [] => cnil
      | x2 :: r2 =>
        let b2 := Byte.to_N x2 in
        if (b0 <? 240)%N
        then ccons ((b0 - 224) * 4096 + (b1 - 128) * 64 + (b2 - 128))%N
                   (decode r2)
        else match r2 with
        | [] => cnil
        | x3 :: r3 =>
          let b3 := Byte.to_N x3 in
          ccons ((b0 - 240) * 262144 + (b1 - 128) * 4096
                 + (b2 - 128) * 64 + (b3 - 128))%N
                (decode r3)
        end
      end
    end
  end.

(** Literals are only read, never printed back. *)
Definition encode (s : codes) : option (list byte) := None.

End Utf8.

Declare Scope py_scope.
Delimit Scope py_scope with py.
Set Warnings "-via-type-mismatch".
String Notation list Utf8.decode Utf8.encode
  (via Utf8.codes mapping [[nil] => Utf8.cnil, [cons] => Utf8.ccons]) : py_scope.
Set Warnings "via-type-mismatch".

(** [s.startswith(p)] *)
Fixpoint starts_with (p s : pystr) : bool :=
  match p, s with
  | [], _ => true
  | _ :: _, [] => false
  | a :: p', b :: s' => (a =? b)%N && starts_with p' s'
  end.

(** [needle in hay] on text: [needle] starts at some position of [hay]. *)
Fixpoint contains (needle hay : pystr) : bool :=
  starts_with needle hay
  || match hay with
     | [] => false
     | _ :: rest => contains needle rest
     end.

(** [any(k in text for k in keywords)] *)
Definition any_in (keywords : list pystr) (text : pystr) : bool :=
  existsb (fun k => contains k text) keywords.

(** [s[:n]] for [n >= 0] *)
Definition slice_to (n : nat) (s : pystr) : pystr := take n s.

(** [sep.join(parts)] *)
Fixpoint join (sep : pystr) (parts : list pystr) : pystr :=
  match parts with
  | [] => []
  | [p] => p
  | p :: rest => p ++ sep ++ join sep rest
  end.

(** ** Python values that travel through the tools

    Payloads of the vector store and the lists of dicts the tools print.
    A dict is kept as an association list in insertion order, the order in
    which Python prints it. *)
Inductive pyval : Type :=
| PNone
| PBool (b : bool)
| PInt (n : Z)
| PFloat (x : float)
| PStr (s : pystr)
| PList (xs : list pyval)
| PDict (kvs : list (pystr * pyval)).

Definition pydict : Type := list (pystr * pyval).

Definition pystr_eqb (a b : pystr) : bool := bool_decide (a = b).

(** [d.get(key, default)] *)
Fixpoint dict_get (d : pydict) (key : pystr) (default : pyval) : pyval :=
  match d with
  | [] => default
  | (k, v) :: rest => if pystr_eqb k key then v else dict_get rest key default
  end.

(** What the interpreter supplies: [str.lower], whose case tables cover all
    of Unicode, and [repr], whose printing of floats and of text (quotes,
    escapes) is the interpreter's own. *)
Class Builtins : Type := {
  lower : pystr -> pystr;
  repr_ : pyval -> pystr
}.

(** [str(v)]: text prints as itself, every other value here as its [repr]. *)
Definition str_ `{Builtins} (v : pyval) : pystr :=
  match v with
  | PStr s => s
  | _ => repr_ v
  end.

(** ** Exceptions

    [exn] stands for an instance of a subclass of [Exception], which is what
    the [except Exception] clauses of the module catch; [exn_text] is
    [str(e)]. *)
Record exn : Type := Exception { exn_class : pystr; exn_text : pystr }.

Inductive outcome (A : Type) : Type :=
| Ok (a : A)
| Raise (e : exn).
Arguments Ok {A} a.
Arguments Raise {A} e.

#[export] Instance outcome_ret : MRet outcome := fun A a => Ok a.

#[export] Instance outcome_bind : MBind outcome := fun A B k o =>
  match o with
  | Ok a => k a
  | Raise e => Raise e
  end.

(** [for x in xs: out.append(f(x))], where [f] may raise *)
Fixpoint for_each {A B} (f : A -> outcome B) (xs : list A) : outcome (list B) :=
  match xs with
  | [] => Ok []
  | x :: rest => y ← f x; ys ← for_each f rest; Ok (y :: ys)
  end.

Definition type_name (v : pyval) : pystr :=
  match v with
  | PNone => "NoneType"%py
  | PBool _ => "bool"%py
  | PInt _ => "int"%py
  | PFloat _ => "float"%py
  | PStr _ => "str"%py
  | PList _ => "list"%py
  | PDict _ => "dict"%py
  end.

Definition AttributeError (type attr : pystr) : exn :=
  Exception ("AttributeError"%py)
    ("'"%py ++ type ++ "' object has no attribute '"%py ++ attr ++ "'"%py).

Definition TypeError (text : pystr) : exn := Exception ("TypeError"%py) text.

(** [str(KeyError(key))] is [repr(key)]. *)
Definition KeyError `{Builtins} (key : pystr) : exn :=
  Exception ("KeyError"%py) (repr_ (PStr key)).

(** [v.get(key, default)]: only a dict has [get]. *)
Definition get (v : pyval) (key : pystr) (default : pyval) : outcome pyval :=
  match v with
  | PDict d => Ok (dict_get d key default)
  | _ => Raise (AttributeError (type_name v) ("get"%py))
  end.

(** ** Objects that are shared and mutated

    The metrics of the analytics agent are a dict holding an integer and two
    lists. The dict and the lists are objects with an identity: a name or a
    dict entry holds a reference to them, and every holder of the reference
    sees an update in place. *)
Module Heap.

Definition loc : Type := positive.

Inductive val : Type :=
| VInt (n : Z)
| VStr (s : pystr)
| VRef (l : loc).

Inductive obj : Type :=
| ODict (d : gmap pystr val)
| OList (xs : list val).

Abbreviation heap := (gmap loc obj).

(** A new object gets an address no live object has. *)
Definition alloc (o : obj) (h : heap) : loc * heap :=
  let l := fresh (dom h) in (l, <[l := o]> h).

End Heap.
Export Heap.

(** ** Calls that are observed

    The calls the properties speak of are recorded, in order, by the caller:
    tool invocations, calls to the collaborators, calls to
    [track_conversation]. *)
Inductive event : Type :=
| EvProductSearchTool (query : pystr) (category : option pystr) (max_results : Z)
| EvPromotionSearchTool
| EvUserHistoryTool (user_id limit : Z)
| EvEncodeQuery (text : pystr)
| EvSearchSimilar (query_vector : list float) (limit : Z) (filters : pydict)
| EvGetChatsByUsuario (user_id : Z)
| EvGetMensajesByChat (chat_id limit offset : Z)
| EvLlmResponse (prompt : pystr)
| EvTrackConversation (user_msg bot_response : pystr).

Record world : Type := World {
  w_heap : heap;
  w_trace : list event
}.

(** ** Statements: state passing with exceptions

    A raised exception keeps the updates made before it. The one [await]
    of the module is run as a call: nothing else runs in between. *)
Definition M (A : Type) : Type := world -> outcome A * world.

Definition raise {A} (e : exn) : M A := fun w => (Raise e, w).

#[export] Instance M_ret : MRet M := fun A a w => (Ok a, w).

#[export] Instance M_bind : MBind M := fun A B k m w =>
  match m w with
  | (Ok a, w') => k a w'
  | (Raise e, w') => (Raise e, w')
  end.

(** [try: body  except Exception as e: handler] *)
Definition try_except {A} (body : M A) (handler : exn -> M A) : M A :=
  fun w =>
    match body w with
    | (Ok a, w') => (Ok a, w')
    | (Raise e, w') => handler e w'
    end.

(** The value or the exception a callee produced, taken over by the caller. *)
Definition lift {A} (o : outcome A) : M A := fun w => (o, w).

Definition log (ev : event) : M unit :=
  fun w => (Ok tt, World (w_heap w) (w_trace w ++ [ev])).

(** A recorded call. *)
Definition call {A} (ev : event) (callee : M A) : M A := log ev ;; callee.

Definition get_heap : M heap := fun w => (Ok (w_heap w), w).

Definition put_heap (h : heap) : M unit :=
  fun w => (Ok tt, World h (w_trace w)).

(** ** Collaborators

    The vector store, the embedding model, the two controllers of the
    relational layer and the language model live outside this module. Each
    construction and each call either gives a value or raises. One call of
    [handle] or of [handle_user_message] calls each of them at most once, so
    a function of the arguments says all there is to say about the answer. *)
Record Chat : Type := { chat_id : Z }.

Record Mensaje : Type := {
  rol : pyval;
  contenido : pystr;
  (** [None], or the date, kept as the text [isoformat()] gives for it *)
  fechaCreacion : option pystr
}.

Record Env : Type := {
  (** [QdrantService()] *)
  QdrantService : outcome unit;
  (** [from app.services.embedding import EmbeddingService] *)
  import_EmbeddingService : outcome unit;
  (** [EmbeddingService()] *)
  EmbeddingService : outcome unit;
  encode_query : pystr -> outcome (list float);
  (** [search_similar(query_vector, limit=..., filters=...)]: a list of
      hits, each a dict with a ["payload"] dict and a ["score"] *)
  search_similar : list float -> Z -> pydict -> outcome (list pydict);
  (** the two imports at the head of [UserHistoryTool.handle] *)
  import_controllers : outcome unit;
  ChatController : outcome unit;
  get_chats_by_usuario : Z -> outcome (list Chat);
  MensajeController : outcome unit;
  get_mensajes_by_chat : Z -> Z -> Z -> outcome (list Mensaje);
  (** [await self.llm_response_async(prompt)] *)
  llm_response_async : pystr -> outcome pystr
}.

(** ** The tools

    [logger.error] and [logger.info] write to the log handlers only and are
    left out. *)
Module ProductSearchTool.

Record t : Type := {
  query : pystr;
  category : option pystr;
  max_results : Z
}.

(** [ProductSearchTool(query=q)], with the defaults of the class *)
Definition new (q : pystr) : t :=
  {| query := q; category := None; max_results := 5 |}.

Definition no_results : pystr :=
  "No se encontraron productos que coincidan con tu búsqueda."%py.

Definition error_prefix : pystr := "Error ejecutando búsqueda: "%py.

Section handle.
Context `{Builtins} (env : Env).

Definition format_result (result : pydict) : outcome pyval :=
  let payload := dict_get result ("payload"%py) (PDict []) in
  let score := dict_get result ("score"%py) (PInt 0) in
  nombre ← get payload ("nombre"%py) (PStr ("N/A"%py));
  descripcion ← get payload ("descripcion"%py) (PStr ("N/A"%py));
  precio ← get payload ("precio"%py) (PStr ("N/A"%py));
  categoria ← get payload ("categoria"%py) (PStr ("N/A"%py));
  disponible ← get payload ("disponible"%py) (PBool true);
  stock ← get payload ("stock"%py) (PInt 0);
  Ok (PDict [ ("nombre"%py, nombre);
              ("descripcion"%py, descripcion);
              ("precio"%py, precio);
              ("categoria"%py, categoria);
              ("disponible"%py, disponible);
              ("stock"%py, stock);
              ("relevance_score"%py, score) ]).

(** [filters = {}], then [filters["categoria"] = self.category] when the
    category is neither [None] nor empty *)
Definition filters_of (self : t) : pydict :=
  match category self with
  | Some (c :: cs) => [ ("categoria"%py, PStr (c :: cs)) ]
  | _ => []
  end.

Definition body (self : t) : M pystr :=
  lift (QdrantService env) ;;
  lift (import_EmbeddingService env) ;;
  lift (EmbeddingService env) ;;
  query_embedding ←
    call (EvEncodeQuery (query self)) (lift (encode_query env (query self)));
  let filters := filters_of self in
  results ←
    call (EvSearchSimilar query_embedding (max_results self) filters)
         (lift (search_similar env query_embedding (max_results self) filters));
  match results with
  | [] => mret no_results
  | _ :: _ =>
    formatted_results ← lift (for_each format_result results);
    mret (str_ (PList formatted_results))
  end.

Definition handle (self : t) : M pystr :=
  try_except (body self) (fun e => mret (error_prefix ++ exn_text e)).

End handle.

End ProductSearchTool.

Module PromotionSearchTool.

Definition no_promotions : pystr :=
  "No hay promociones activas en este momento."%py.

Definition error_prefix : pystr := "Error obteniendo promociones: "%py.

(** [{"type": "promocion", "activa": True}] *)
Definition filters : pydict :=
  [ ("type"%py, PStr ("promocion"%py)); ("activa"%py, PBool true) ].

(** [[0.0] * 384] *)
Definition neutral_vector : list float := repeat 0%float 384.

Section handle.
Context `{Builtins} (env : Env).

Definition format_result (result : pydict) : outcome pyval :=
  let payload := dict_get result ("payload"%py) (PDict []) in
  descripcion ← get payload ("descripcion"%py) (PStr ("N/A"%py));
  descuento ← get payload ("descuento"%py) (PInt 0);
  productos ← get payload ("productos_nombres"%py) (PStr ("N/A"%py));
  fecha_fin ← get payload ("fecha_fin"%py) (PStr ("N/A"%py));
  Ok (PDict [ ("descripcion"%py, descripcion);
              ("descuento"%py, descuento);
              ("productos"%py, productos);
              ("fecha_fin"%py, fecha_fin) ]).

Definition body : M pystr :=
  lift (QdrantService env) ;;
  results ←
    call (EvSearchSimilar neutral_vector 10 filters)
         (lift (search_similar env neutral_vector 10 filters));
  match results with
  | [] => mret no_promotions
  | _ :: _ =>
    promotions ← lift (for_each format_result results);
    mret (str_ (PList promotions))
  end.

Definition handle : M pystr :=
  try_except body (fun e => mret (error_prefix ++ exn_text e)).

End handle.

End PromotionSearchTool.

Module UserHistoryTool.

Record t : Type := {
  user_id : Z;
  limit : Z
}.

(** [UserHistoryTool(user_id=u)], with the default of the class *)
Definition new (u : Z) : t := {| user_id := u; limit := 10 |}.

Definition no_history : pystr := "Usuario sin historial previo"%py.

Definition error_prefix : pystr := "Error obteniendo historial: "%py.

Section handle.
Context `{Builtins} (env : Env).

Definition format_message (msg : Mensaje) : pyval :=
  PDict [ ("rol"%py, rol msg);
          ("contenido"%py, PStr (slice_to 200 (contenido msg)));
          ("fecha"%py, match fechaCreacion msg with
                       | Some iso => PStr iso
                       | None => PNone
                       end) ].

Definition body (self : t) : M pystr :=
  lift (import_controllers env) ;;
  lift (ChatController env) ;;
  user_chats ←
    call (EvGetChatsByUsuario (user_id self))
         (lift (get_chats_by_usuario env (user_id self)));
  match user_chats with
  | [] => mret no_history
  | latest_chat :: _ =>
    lift (MensajeController env) ;;
    recent_messages ←
      call (EvGetMensajesByChat (chat_id latest_chat) (limit self) 0)
           (lift (get_mensajes_by_chat env (chat_id latest_chat) (limit self) 0));
    let history := List.map format_message recent_messages in
    mret (str_ (PList history))
  end.

Definition handle (self : t) : M pystr :=
  try_except (body self) (fun e => mret (error_prefix ++ exn_text e)).

End handle.

End UserHistoryTool.

(** ** The agents *)
Module KnowledgeAgent.

Definition error_message : pystr :=
  "Lo siento, hubo un error accediendo a la base de conocimiento."%py.

Section handle_message_fallback.
Context `{Builtins} (env : Env).

(** The test of the [if]: [or] stops at the first keyword found. *)
Definition asks_for_promotions (msg : pystr) : bool :=
  contains ("promocion"%py) (lower msg)
  || contains ("descuento"%py) (lower msg)
  || contains ("oferta"%py) (lower msg).

Definition handle_message_fallback (msg : pystr) : M pystr :=
  try_except
    (if asks_for_promotions msg then
       call EvPromotionSearchTool (PromotionSearchTool.handle env)
     else
       let search_tool := ProductSearchTool.new msg in
       call (EvProductSearchTool (ProductSearchTool.query search_tool)
                                 (ProductSearchTool.category search_tool)
                                 (ProductSearchTool.max_results search_tool))
            (ProductSearchTool.handle env search_tool))
    (fun e => mret error_message).

End handle_message_fallback.

End KnowledgeAgent.

Module SalesAgent.

Definition suggestion_prefix : pystr := "Sugerencias adicionales: "%py.

Definition for_uniform : pystr :=
  "¿Has considerado también un cinturón o protecciones?"%py.

Definition for_belt : pystr :=
  "¿Te interesaría ver nuestros uniformes a juego?"%py.

Definition for_protection : pystr :=
  "¿Necesitas también guantes o espinilleras?"%py.

Definition filler : pystr := "Continuando con la conversación..."%py.

Definition error_message : pystr := "Error en análisis de ventas"%py.

Section handle_message_fallback.
Context `{Builtins}.

(** [recommendations = []] followed by the [if]/[elif] chain *)
Definition recommendations (msg : pystr) : list pystr :=
  if contains ("uniforme"%py) (lower msg) then [] ++ [for_uniform]
  else if contains ("cinturon"%py) (lower msg) then [] ++ [for_belt]
  else if contains ("proteccion"%py) (lower msg) then [] ++ [for_protection]
  else [].

Definition handle_message_fallback (msg : pystr) : M pystr :=
  try_except
    (match recommendations msg with
     | (_ :: _) as recs => mret (suggestion_prefix ++ join (" "%py) recs)
     | [] => mret filler
     end)
    (fun e => mret error_message).

End handle_message_fallback.

End SalesAgent.

Module AnalyticsAgent.

(** The agent holds a reference to its metrics dict. *)
Record t : Type := { conversation_metrics : loc }.

Definition positive_indicators : list pystr :=
  [ "gracias"%py; "perfecto"%py; "excelente"%py; "me gusta"%py ].

Definition conversion_indicators : list pystr :=
  [ "comprar"%py; "precio"%py; "disponible"%py; "stock"%py ].

Definition new_object (o : obj) : M loc :=
  h ← get_heap;
  let '(l, h') := alloc o h in
  put_heap h' ;;
  mret l.

(** Every reference a program holds is to a live object; the last case is
    there for the model to be total. *)
Definition deref (l : loc) : M obj :=
  h ← get_heap;
  match h !! l with
  | Some o => mret o
  | None => raise (Exception ("SystemError"%py) ("dangling reference"%py))
  end.

Section methods.
Context `{Builtins}.

(** [target[key]] *)
Definition getitem (target : loc) (key : pystr) : M val :=
  o ← deref target;
  match o with
  | ODict d =>
    match d !! key with
    | Some v => mret v
    | None => raise (KeyError key)
    end
  | OList _ =>
    raise (TypeError ("list indices must be integers or slices, not str"%py))
  end.

(** [target[key] = v] *)
Definition setitem (target : loc) (key : pystr) (v : val) : M unit :=
  o ← deref target;
  match o with
  | ODict d =>
    h ← get_heap;
    put_heap (<[target := ODict (<[key := v]> d)]> h)
  | OList _ =>
    raise (TypeError ("list indices must be integers or slices, not str"%py))
  end.

(** [v += 1], giving the value to store back *)
Definition iadd_1 (v : val) : M val :=
  match v with
  | VInt n => mret (VInt (n + 1))
  | VStr _ =>
    raise (TypeError ("can only concatenate str (not "%py ++ [34%N]
                      ++ "int"%py ++ [34%N] ++ ") to str"%py))
  | VRef l =>
    o ← deref l;
    match o with
    | OList _ => raise (TypeError ("'int' object is not iterable"%py))
    | ODict _ =>
      raise (TypeError
               ("unsupported operand type(s) for +=: 'dict' and 'int'"%py))
    end
  end.

(** [v.append(x)] *)
Definition append (v : val) (x : val) : M unit :=
  match v with
  | VInt _ => raise (AttributeError ("int"%py) ("append"%py))
  | VStr _ => raise (AttributeError ("str"%py) ("append"%py))
  | VRef l =>
    o ← deref l;
    match o with
    | OList xs =>
      h ← get_heap;
      put_heap (<[l := OList (xs ++ [x])]> h)
    | ODict _ => raise (AttributeError ("dict"%py) ("append"%py))
    end
  end.

(** [__init__]: the two empty lists, then the dict that holds them *)
Definition init : M t :=
  user_satisfaction ← new_object (OList []);
  conversion ← new_object (OList []);
  metrics ←
    new_object
      (ODict (<["total_messages"%py := VInt 0]>
                (<["user_satisfaction"%py := VRef user_satisfaction]>
                   (<["conversion_indicators"%py := VRef conversion]> ∅))));
  mret {| conversation_metrics := metrics |}.

Definition track_conversation (self : t) (user_msg bot_response : pystr)
  : M unit :=
  total ← getitem (conversation_metrics self) ("total_messages"%py);
  total' ← iadd_1 total;
  setitem (conversation_metrics self) ("total_messages"%py) total' ;;
  (if any_in positive_indicators (lower user_msg) then
     satisfaction ← getitem (conversation_metrics self) ("user_satisfaction"%py);
     append satisfaction (VStr ("positive"%py))
   else mret tt) ;;
  (if any_in conversion_indicators (lower user_msg) then
     conversion ← getitem (conversation_metrics self) ("conversion_indicators"%py);
     append conversion (VStr (slice_to 50 user_msg))
   else mret tt).

(** [self.conversation_metrics.copy()]: a new object with the same
    entries; an entry that is a reference is copied as a reference. *)
Definition get_metrics (self : t) : M loc :=
  o ← deref (conversation_metrics self);
  new_object o.

End methods.

End AnalyticsAgent.

Module MainBaekhoAgent.

(** Of the three sub-agents only the analytics agent has state. *)
Record t : Type := { analytics_agent : AnalyticsAgent.t }.

Definition apology : pystr :=
  "Lo siento, hubo un error procesando tu consulta. Por favor intenta de nuevo."%py.

Definition nl : pystr := [10%N].

(** The margin the lines of the prompt carry inside the triple quotes. *)
Definition margin : pystr := "            "%py.

Definition context_prompt (message knowledge_response sales_response : pystr)
  : pystr :=
  nl ++ margin ++ "Consulta del usuario: "%py ++ message
  ++ nl ++ margin
  ++ nl ++ margin ++ "Información de productos encontrada:"%py
  ++ nl ++ margin ++ knowledge_response
  ++ nl ++ margin
  ++ nl ++ margin ++ "Recomendaciones de ventas:"%py
  ++ nl ++ margin ++ sales_response
  ++ nl ++ margin
  ++ nl ++ margin
  ++ "Basándote en esta información, proporciona una respuesta completa y útil al usuario."%py
  ++ nl ++ margin
  ++ "Mantén el tono amigable y comercial de BaekhoBot 🥋."%py
  ++ nl ++ margin.

Section methods.
Context `{Builtins} (env : Env).

Definition init : M t :=
  analytics ← AnalyticsAgent.init;
  mret {| analytics_agent := analytics |}.

(** The body of the [try] *)
Definition pipeline (self : t) (message : pystr) : M pystr :=
  call (EvTrackConversation message [])
       (AnalyticsAgent.track_conversation (analytics_agent self) message []) ;;
  knowledge_response ← KnowledgeAgent.handle_message_fallback env message;
  sales_response ← SalesAgent.handle_message_fallback message;
  let prompt := context_prompt message knowledge_response sales_response in
  final_response ←
    call (EvLlmResponse prompt) (lift (llm_response_async env prompt));
  call (EvTrackConversation message final_response)
       (AnalyticsAgent.track_conversation (analytics_agent self) message
                                          final_response) ;;
  mret final_response.

Definition handle_user_message (self : t) (message : pystr) : M pystr :=
  try_except (pipeline self message) (fun e => mret apology).

Definition get_conversation_stats (self : t) : M loc :=
  AnalyticsAgent.get_metrics (analytics_agent self).

End methods.

End MainBaekhoAgent.

Module BaekhoAgentFactory.

(** [create_main_agent]: the configuration it builds is for the language
    model; what is constructed is the main agent. *)
Definition create_main_agent : M MainBaekhoAgent.t := MainBaekhoAgent.init.

End BaekhoAgentFactory.

(** ** Running the model

    An instance of the builtins for running examples: [lower_ascii] is
    [str.lower] on ASCII text, and [repr_plain] is [repr] on [None],
    booleans, integers, text made of printable ASCII without quotes or
    backslashes, the float zero, and lists and dicts of those (any other
    float prints as a placeholder). The properties below hold for every
    instance. *)
Definition lower_ascii (s : pystr) : pystr :=
  List.map (fun c => if (65 <=? c)%N && (c <=? 90)%N then (c + 32)%N else c) s.

Definition decimal (n : Z) : pystr :=
  List.map (fun b => Byte.to_N b)
           (list_byte_of_string (DecimalString.NilZero.string_of_int (Z.to_int n))).

Fixpoint repr_plain (v : pyval) : pystr :=
  match v with
  | PNone => "None"%py
  | PBool true => "True"%py
  | PBool false => "False"%py
  | PInt n => decimal n
  | PFloat x =>
    match classify x with
    | FloatClass.PZero => "0.0"%py
    | FloatClass.NZero => "-0.0"%py
    | _ => "<float>"%py
    end
  | PStr s => "'"%py ++ s ++ "'"%py
  | PList xs => "["%py ++ join (", "%py) (List.map repr_plain xs) ++ "]"%py
  | PDict kvs =>
    "{"%py
    ++ join (", "%py)
         (List.map (fun kv => "'"%py ++ fst kv ++ "': "%py ++ repr_plain (snd kv)) kvs)
    ++ "}"%py
  end.

Definition plain : Builtins := {| lower := lower_ascii; repr_ := repr_plain |}.

(** A vector store with nothing in it, an empty relational layer and a
    language model that answers every prompt with the same line. *)
Definition quiet_env : Env := {|
  QdrantService := Ok tt;
  import_EmbeddingService := Ok tt;
  EmbeddingService := Ok tt;
  encode_query := fun _ => Ok [0%float];
  search_similar := fun _ _ _ => Ok [];
  import_controllers := Ok tt;
  ChatController := Ok tt;
  get_chats_by_usuario := fun _ => Ok [];
  MensajeController := Ok tt;
  get_mensajes_by_chat := fun _ _ _ => Ok [];
  llm_response_async := fun _ => Ok ("Hola, soy BaekhoBot."%py)
|}.

Definition ConnectionError : exn :=
  Exception ("ConnectionError"%py) ("connection refused"%py).

(** The same, with a vector store whose searches fail. *)
Definition search_down_env : Env := {|
  QdrantService := Ok tt;
  import_EmbeddingService := Ok tt;
  EmbeddingService := Ok tt;
  encode_query := fun _ => Ok [0%float];
  search_similar := fun _ _ _ => Raise ConnectionError;
  import_controllers := Ok tt;
  ChatController := Ok tt;
  get_chats_by_usuario := fun _ => Raise ConnectionError;
  MensajeController := Ok tt;
  get_mensajes_by_chat := fun _ _ _ => Ok [];
  llm_response_async := fun _ => Raise ConnectionError
|}.

Definition empty_world : world := World ∅ [].

(** ** What the properties speak of *)

(** [needle] occurs in [hay]. *)
Definition occurs (needle hay : pystr) : Prop :=
  exists before after, hay = before ++ needle ++ after.

(** One of the keywords occurs in the text. *)
Definition mentions (keywords : list pystr) (text : pystr) : Prop :=
  exists k, In k keywords /\ occurs k text.

Definition begins_with (prefix s : pystr) : Prop :=
  exists rest, s = prefix ++ rest.

(** The calls recorded between two worlds. *)
Definition new_events (before after : world) : list event :=
  drop (length (w_trace before)) (w_trace after).

(** After [w], the calls [delta] were recorded and the heap was left as it
    was. *)
Definition extends (w : world) (delta : list event) : world :=
  World (w_heap w) (w_trace w ++ delta).

Definition is_tool_invocation (ev : event) : bool :=
  match ev with
  | EvProductSearchTool _ _ _ | EvPromotionSearchTool | EvUserHistoryTool _ _ => true
  | _ => false
  end.

Definition is_track_conversation (ev : event) : bool :=
  match ev with
  | EvTrackConversation _ _ => true
  | _ => false
  end.

Definition is_collaborator_call (ev : event) : bool :=
  match ev with
  | EvEncodeQuery _ | EvSearchSimilar _ _ _ | EvGetChatsByUsuario _
  | EvGetMensajesByChat _ _ _ | EvLlmResponse _ => true
  | _ => false
  end.

(** The metrics as a reader of the agent sees them: the counter and the
    contents of the two lists. The two lists are two objects. *)
Module Metrics.

Record t : Type := {
  total_messages : Z;
  user_satisfaction : list val;
  conversion_indicators : list val
}.

Definition stored_list (h : heap) (v : val) : option (list val) :=
  match v with
  | VRef l => match h !! l with
              | Some (OList xs) => Some xs
              | _ => None
              end
  | _ => None
  end.

Definition of_dict (h : heap) (d : gmap pystr val) : option t :=
  match d !! "total_messages"%py,
        d !! "user_satisfaction"%py,
        d !! "conversion_indicators"%py with
  | Some (VInt n), Some (VRef ls), Some (VRef lc) =>
    if bool_decide (ls = lc) then None
    else
      xs ← stored_list h (VRef ls);
      ys ← stored_list h (VRef lc);
      Some {| total_messages := n;
              user_satisfaction := xs;
              conversion_indicators := ys |}
  | _, _, _ => None
  end.

(** The metrics reached from a reference to a metrics dict *)
Definition at_ (h : heap) (l : loc) : option t :=
  match h !! l with
  | Some (ODict d) => of_dict h d
  | _ => None
  end.

Definition of_agent (h : heap) (self : AnalyticsAgent.t) : option t :=
  at_ h (AnalyticsAgent.conversation_metrics self).

(** The counter alone, whatever the rest of the dict holds *)
Definition total_of (h : heap) (self : AnalyticsAgent.t) : option Z :=
  match h !! AnalyticsAgent.conversation_metrics self with
  | Some (ODict d) =>
    match d !! "total_messages"%py with
    | Some (VInt n) => Some n
    | _ => None
    end
  | _ => None
  end.

End Metrics.

(** A collaborator raises [e] inside [handle]: the constructions and calls
    before it, in the order of the source, went through, and it is reached
    and raises. *)
Definition product_collaborator_raises
    (env : Env) (self : ProductSearchTool.t) (e : exn) : Prop :=
  QdrantService env = Raise e
  \/ (QdrantService env = Ok tt
      /\ (import_EmbeddingService env = Raise e
          \/ (import_EmbeddingService env = Ok tt
              /\ (EmbeddingService env = Raise e
                  \/ (EmbeddingService env = Ok tt
                      /\ (encode_query env (ProductSearchTool.query self) = Raise e
                          \/ exists query_embedding,
                              encode_query env (ProductSearchTool.query self)
                              = Ok query_embedding
                              /\ search_similar env query_embedding
                                    (ProductSearchTool.max_results self)
                                    (ProductSearchTool.filters_of self)
                                  = Raise e)))))).

Definition promotion_collaborator_raises (env : Env) (e : exn) : Prop :=
  QdrantService env = Raise e
  \/ (QdrantService env = Ok tt
      /\ search_similar env PromotionSearchTool.neutral_vector 10
            PromotionSearchTool.filters = Raise e).

Definition history_collaborator_raises
    (env : Env) (self : UserHistoryTool.t) (e : exn) : Prop :=
  import_controllers env = Raise e
  \/ (import_controllers env = Ok tt
      /\ (ChatController env = Raise e
          \/ (ChatController env = Ok tt
              /\ (get_chats_by_usuario env (UserHistoryTool.user_id self) = Raise e
                  \/ exists latest_chat older,
                      get_chats_by_usuario env (UserHistoryTool.user_id self)
                      = Ok (latest_chat :: older)
                      /\ (MensajeController env = Raise e
                          \/ (MensajeController env = Ok tt
                              /\ get_mensajes_by_chat env (chat_id latest_chat)
                                    (UserHistoryTool.limit self) 0
                                  = Raise e)))))).

(** What a caller can do with the mapping [get_metrics] returned: assign or
    delete an entry, or append to the list held by an entry. *)
Inductive mutation : Type :=
| SetItem (key : pystr) (v : val)
| DelItem (key : pystr)
| AppendTo (key : pystr) (x : val).

Definition touches_nested (mu : mutation) : bool :=
  match mu with
  | AppendTo _ _ => true
  | _ => false
  end.

Section mutate.
Context `{Builtins}.

(** [del target[key]] *)
Definition delitem (target : loc) (key : pystr) : M unit :=
  o ← AnalyticsAgent.deref target;
  match o with
  | ODict d =>
    match d !! key with
    | Some _ =>
      h ← get_heap;
      put_heap (<[target := ODict (delete key d)]> h)
    | None => raise (KeyError key)
    end
  | OList _ =>
    raise (TypeError ("list indices must be integers or slices, not str"%py))
  end.

Definition mutate (returned : loc) (mu : mutation) : M unit :=
  match mu with
  | SetItem key v => AnalyticsAgent.setitem returned key v
  | DelItem key => delitem returned key
  | AppendTo key x =>
    held ← AnalyticsAgent.getitem returned key;
    AnalyticsAgent.append held x
  end.

(** A conversation: [track_conversation] called once per pair, in order *)
Fixpoint track_all (self : AnalyticsAgent.t) (calls : list (pystr * pystr))
  : M unit :=
  match calls with
  | [] => mret tt
  | (user_msg, bot_response) :: rest =>
    AnalyticsAgent.track_conversation self user_msg bot_response ;;
    track_all self rest
  end.

(** Several mutations of the returned mapping, one after the other *)
Fixpoint mutate_all (returned : loc) (mus : list mutation) : M unit :=
  match mus with
  | [] => mret tt
  | mu :: rest => mutate returned mu ;; mutate_all returned rest
  end.

End mutate.

(** A text of at most 50 characters, as an element of a list *)
Definition short_text (v : val) : Prop :=
  exists s, v = VStr s /\ (length s <= 50)%nat.

Definition top_level (mus : list mutation) : Prop :=
  Forall (fun mu => touches_nested mu = false) mus.

(** The reading of "the returned mapping is a copy" that covers the nested
    lists: whatever the caller does to the returned mapping or through it,
    the agent's metrics read as before. *)
Definition returned_metrics_isolated : Prop :=
  forall (B : Builtins) (self : AnalyticsAgent.t) h tr (m : Metrics.t)
         (returned : loc) h1 (mus : list mutation) r w2,
    Metrics.of_agent h self = Some m ->
    AnalyticsAgent.get_metrics self (World h tr) = (Ok returned, World h1 tr) ->
    mutate_all returned mus (World h1 tr) = (r, w2) ->
    Metrics.of_agent (w_heap w2) self = Some m.

(** The metrics of an agent that has tracked nothing yet *)
Definition no_metrics : Metrics.t :=
  {| Metrics.total_messages := 0;
     Metrics.user_satisfaction := [];
     Metrics.conversion_indicators := [] |}.

(** The first agent constructed in an empty world, and that world *)
Definition first_agent : AnalyticsAgent.t :=
  {| AnalyticsAgent.conversation_metrics := 3%positive |}.

Definition first_world : world := snd (AnalyticsAgent.init empty_world).

(** The main agent around the first analytics agent *)
Definition first_main_agent : MainBaekhoAgent.t :=
  {| MainBaekhoAgent.analytics_agent := first_agent |}.

Definition a_question : pystr := "Hola, gracias. Precio del uniforme?"%py.

(** One turn of conversation with everything up. *)
Definition world_after_question : world :=
  snd (@MainBaekhoAgent.handle_user_message plain quiet_env
         first_main_agent a_question first_world).

(** A caller of the first agent takes the metrics and appends a tag to the
    list under "user_satisfaction" of what it was given:
    [m = agent.get_metrics(); m["user_satisfaction"].append("negative")]. *)
Definition caller_appends : list mutation :=
  [AppendTo "user_satisfaction"%py (VStr "negative"%py)].

Definition world_after_get_metrics : world :=
  snd (AnalyticsAgent.get_metrics first_agent first_world).

Definition world_after_append : world :=
  snd (@mutate_all plain 4%positive caller_appends world_after_get_metrics).

(** ** What the further properties speak of *)

(** The payload [handle] reads from a hit: [result.get("payload", {})] *)
Definition payload_of (hit : pydict) : pyval :=
  dict_get hit ("payload"%py) (PDict []).

Definition has_dict_payload (hit : pydict) : Prop :=
  exists payload, payload_of hit = PDict payload.

Definition is_dict (v : pyval) : bool :=
  match v with
  | PDict _ => true
  | _ => false
  end.

(** The entries of a formatted product, as a table: the key, read from the
    payload under the same key, and what stands in when the payload has no
    such key. *)
Definition product_defaults : list (pystr * pyval) :=
  [ ("nombre"%py, PStr "N/A"%py);
    ("descripcion"%py, PStr "N/A"%py);
    ("precio"%py, PStr "N/A"%py);
    ("categoria"%py, PStr "N/A"%py);
    ("disponible"%py, PBool true);
    ("stock"%py, PInt 0) ].

Definition product_entry (hit : pydict) (v : pyval) : Prop :=
  exists payload,
    payload_of hit = PDict payload
    /\ v = PDict (List.map (fun kd => (fst kd, dict_get payload (fst kd) (snd kd)))
                          product_defaults
                 ++ [("relevance_score"%py, dict_get hit ("score"%py) (PInt 0))]).

(** The entries of a formatted promotion: the key of the entry, the key
    read from the payload, and the default. *)
Definition promotion_defaults : list (pystr * pystr * pyval) :=
  [ ("descripcion"%py, "descripcion"%py, PStr "N/A"%py);
    ("descuento"%py, "descuento"%py, PInt 0);
    ("productos"%py, "productos_nombres"%py, PStr "N/A"%py);
    ("fecha_fin"%py, "fecha_fin"%py, PStr "N/A"%py) ].

Definition promotion_entry (hit : pydict) (v : pyval) : Prop :=
  exists payload,
    payload_of hit = PDict payload
    /\ v = PDict (List.map (fun kd => (fst (fst kd),
                                       dict_get payload (snd (fst kd)) (snd kd)))
                          promotion_defaults).

(** The collaborators of the product search all answer, the search with
    [results]. *)
Definition product_search_returns
    (env : Env) (self : ProductSearchTool.t)
    (query_embedding : list float) (results : list pydict) : Prop :=
  QdrantService env = Ok tt
  /\ import_EmbeddingService env = Ok tt
  /\ EmbeddingService env = Ok tt
  /\ encode_query env (ProductSearchTool.query self) = Ok query_embedding
  /\ search_similar env query_embedding (ProductSearchTool.max_results self)
                    (ProductSearchTool.filters_of self) = Ok results.

Definition promotion_search_returns (env : Env) (results : list pydict) : Prop :=
  QdrantService env = Ok tt
  /\ search_similar env PromotionSearchTool.neutral_vector 10
                    PromotionSearchTool.filters = Ok results.

(** The relational layer answers: the chats of the user, then the messages
    of the chat asked for. *)
Definition history_returns
    (env : Env) (self : UserHistoryTool.t)
    (user_chats : list Chat) : Prop :=
  import_controllers env = Ok tt
  /\ ChatController env = Ok tt
  /\ get_chats_by_usuario env (UserHistoryTool.user_id self) = Ok user_chats.

(** A store holding one product with a full payload and one hit that came
    without a payload. *)
Definition dobok_hit : pydict :=
  [ ("payload"%py,
     PDict [ ("nombre"%py, PStr "Dobok"%py); ("precio"%py, PInt 120);
             ("color"%py, PStr "blanco"%py) ]);
    ("score"%py, PInt 1) ].

Definition bare_hit : pydict := [ ("id"%py, PInt 7) ].

(** A hit whose payload is [None] *)
Definition null_payload_hit : pydict := [ ("payload"%py, PNone); ("score"%py, PInt 1) ].

Definition stocked_env (results : list pydict) : Env := {|
  QdrantService := Ok tt;
  import_EmbeddingService := Ok tt;
  EmbeddingService := Ok tt;
  encode_query := fun _ => Ok [0%float];
  search_similar := fun _ _ _ => Ok results;
  import_controllers := Ok tt;
  ChatController := Ok tt;
  get_chats_by_usuario := fun _ => Ok [ {| chat_id := 42 |}; {| chat_id := 41 |} ];
  MensajeController := Ok tt;
  get_mensajes_by_chat := fun c _ _ =>
    if (c =? 42)%Z
    then Ok [ {| rol := PStr "user"%py; contenido := "Hola"%py;
                 fechaCreacion := None |} ]
    else Ok [];
  llm_response_async := fun _ => Ok ("Hola, soy BaekhoBot."%py)
|}.

(** One entry of the history, for one message: the body is cut to its
    first 200 characters. *)
Definition history_entry (msg : Mensaje) (v : pyval) : Prop :=
  exists text,
    v = PDict [ ("rol"%py, rol msg);
                ("contenido"%py, PStr text);
                ("fecha"%py, match fechaCreacion msg with
                             | Some iso => PStr iso
                             | None => PNone
                             end) ]
    /\ text = take 200 (contenido msg)
    /\ (length text <= 200)%nat
    /\ ((length (contenido msg) <= 200)%nat -> text = contenido msg).

(** Calls to the vector store and to the embedding model *)
Definition is_vector_call (ev : event) : bool :=
  match ev with
  | EvEncodeQuery _ | EvSearchSimilar _ _ _ => true
  | _ => false
  end.

(** Calls to the relational layer *)
Definition is_relational_call (ev : event) : bool :=
  match ev with
  | EvGetChatsByUsuario _ | EvGetMensajesByChat _ _ _ => true
  | _ => false
  end.

(** The two lists a metrics dict refers to *)
Definition metrics_lists (h : heap) (l : loc) : option (loc * loc) :=
  match h !! l with
  | Some (ODict d) =>
    match d !! "user_satisfaction"%py, d !! "conversion_indicators"%py with
    | Some (VRef ls), Some (VRef lc) => Some (ls, lc)
    | _, _ => None
    end
  | _ => None
  end.

(** The objects that make up the metrics of an agent: its dict and the two
    lists. *)
Definition footprint (h : heap) (self : AnalyticsAgent.t) : list loc :=
  AnalyticsAgent.conversation_metrics self
  :: match metrics_lists h (AnalyticsAgent.conversation_metrics self) with
     | Some (ls, lc) => [ls; lc]
     | None => []
     end.

(** Between [h] and [h'] no object but [returned] was replaced, and the
    lists only got longer at the end. *)
Definition only_appended (returned : loc) (h h' : heap) : Prop :=
  forall l,
    l <> returned ->
    match h !! l with
    | Some (OList xs) => exists more, h' !! l = Some (OList (xs ++ more))
    | other => h' !! l = other
    end.

(** How many of the recorded calls are of one kind *)
Definition count_calls (kind : event -> bool) (trace : list event) : nat :=
  length (List.filter kind trace).

Definition is_llm_call (ev : event) : bool :=
  match ev with
  | EvLlmResponse _ => true
  | _ => false
  end.

Section turns.
Context `{Builtins} (env : Env).

(** The metrics one call of [track_conversation] with [user_msg] leaves *)
Definition tracked (m : Metrics.t) (user_msg : pystr) : Metrics.t :=
  {| Metrics.total_messages := Metrics.total_messages m + 1;
     Metrics.user_satisfaction :=
       Metrics.user_satisfaction m
       ++ (if any_in AnalyticsAgent.positive_indicators (lower user_msg)
           then [VStr "positive"%py] else []);
     Metrics.conversion_indicators :=
       Metrics.conversion_indicators m
       ++ (if any_in AnalyticsAgent.conversion_indicators (lower user_msg)
           then [VStr (slice_to 50 user_msg)] else []) |}.

(** A conversation with the main agent: one [handle_user_message] per
    message, in order, the replies collected *)
Fixpoint handle_all (self : MainBaekhoAgent.t) (messages : list pystr)
  : M (list pystr) :=
  match messages with
  | [] => mret []
  | message :: rest =>
    reply ← MainBaekhoAgent.handle_user_message env self message;
    replies ← handle_all self rest;
    mret (reply :: replies)
  end.

End turns.

(** An agent whose metrics dict has lost its entries, as after
    [agent.conversation_metrics.clear()] *)
Definition cleared_agent : AnalyticsAgent.t :=
  {| AnalyticsAgent.conversation_metrics := 1%positive |}.

Definition cleared_world : world :=
  World (<[1%positive := ODict ∅]> ∅) [].

(** * Properties *)

(** ** Text *)

Lemma starts_with_spec (p s : pystr) :
  starts_with p s = true <-> begins_with p s.
Proof.
  unfold begins_with. revert s.
  induction p as [|a p IH]; intros s; simpl.
  - split; [intros _; by exists s | done].
  - destruct s as [|b s]; simpl.
    + split; [done | intros [rest E]; discriminate E].
    + rewrite andb_true_iff, N.eqb_eq, IH. split.
      * intros [-> [rest ->]]. by exists rest.
      * intros [rest E]. injection E as -> ->. split; [done | by exists rest].
Qed.

Lemma contains_spec (needle hay : pystr) :
  contains needle hay = true <-> occurs needle hay.
Proof.
  unfold occurs.
  induction hay as [|c hay IH].
  - simpl. rewrite orb_false_r, starts_with_spec. split.
    + intros [rest E]. by exists [], rest.
    + intros (before & after & E).
      symmetry in E. apply app_eq_nil in E as [-> E].
      apply app_eq_nil in E as [-> _]. by exists [].
  - cbn [contains]. rewrite orb_true_iff, starts_with_spec, IH. split.
    + intros [[rest E] | (before & after & E)].
      * by exists [], rest.
      * exists (c :: before), after. by rewrite E.
    + intros (before & after & E). destruct before as [|b before].
      * left. by exists after.
      * right. injection E as _ E. by exists before, after.
Qed.

Lemma contains_false (needle hay : pystr) :
  contains needle hay = false <-> ~ occurs needle hay.
Proof.
  rewrite <- contains_spec. destruct (contains needle hay); split; congruence.
Qed.

Lemma any_in_spec (keywords : list pystr) (text : pystr) :
  any_in keywords text = true <-> mentions keywords text.
Proof.
  unfold any_in, mentions. rewrite existsb_exists.
  split; intros (k & Hin & Hk); exists k; (split; [exact Hin|]);
    by apply contains_spec.
Qed.

Lemma any_in_false (keywords : list pystr) (text : pystr) :
  any_in keywords text = false <-> ~ mentions keywords text.
Proof.
  rewrite <- any_in_spec. destruct (any_in keywords text); split; congruence.
Qed.

Lemma slice_to_length (n : nat) (s : pystr) :
  (length (slice_to n s) <= n)%nat.
Proof. unfold slice_to. rewrite length_take. lia. Qed.

Lemma new_events_app (w : world) (h : heap) (delta : list event) :
  new_events w (World h (w_trace w ++ delta)) = delta.
Proof. unfold new_events. simpl. apply drop_app_length. Qed.

(** ** Running statements *)

Ltac unfold_monad :=
  unfold try_except, call, log, lift, raise, get_heap, put_heap,
         mbind, M_bind, mret, M_ret in *.

Lemma try_except_ok {A} (body : M A) (handler : exn -> M A) w a w' :
  body w = (Ok a, w') -> try_except body handler w = (Ok a, w').
Proof. unfold try_except. by intros ->. Qed.

Lemma try_except_raise {A} (body : M A) (handler : exn -> M A) w e w' :
  body w = (Raise e, w') -> try_except body handler w = handler e w'.
Proof. unfold try_except. by intros ->. Qed.

(** A case whose premises cannot hold together. Equations between texts
    are left alone: comparing two different literals is costly. *)
Ltac vacuous := intros; exfalso; tauto.

(** ** SalesAgent *)

Lemma suggestion_prefix_begins (rest : pystr) :
  begins_with ("Sugerencias adicionales:"%py) (SalesAgent.suggestion_prefix ++ rest).
Proof. exists (" "%py ++ rest). reflexivity. Qed.

Lemma filler_is_no_suggestion :
  ~ begins_with ("Sugerencias adicionales:"%py) SalesAgent.filler.
Proof.
  intros Hb. apply starts_with_spec in Hb. vm_compute in Hb. discriminate Hb.
Qed.

Section sales.
Context `{Builtins}.

Lemma recommendations_cases (msg : pystr) :
  (occurs ("uniforme"%py) (lower msg)
   /\ SalesAgent.recommendations msg = [SalesAgent.for_uniform])
  \/ (~ occurs ("uniforme"%py) (lower msg)
      /\ occurs ("cinturon"%py) (lower msg)
      /\ SalesAgent.recommendations msg = [SalesAgent.for_belt])
  \/ (~ occurs ("uniforme"%py) (lower msg)
      /\ ~ occurs ("cinturon"%py) (lower msg)
      /\ occurs ("proteccion"%py) (lower msg)
      /\ SalesAgent.recommendations msg = [SalesAgent.for_protection])
  \/ (~ occurs ("uniforme"%py) (lower msg)
      /\ ~ occurs ("cinturon"%py) (lower msg)
      /\ ~ occurs ("proteccion"%py) (lower msg)
      /\ SalesAgent.recommendations msg = []).
Proof.
  unfold SalesAgent.recommendations.
  destruct (contains ("uniforme"%py) (lower msg)) eqn:Hu.
  { left. by apply contains_spec in Hu. }
  apply contains_false in Hu. right.
  destruct (contains ("cinturon"%py) (lower msg)) eqn:Hc.
  { left. by apply contains_spec in Hc. }
  apply contains_false in Hc. right.
  destruct (contains ("proteccion"%py) (lower msg)) eqn:Hp.
  { left. by apply contains_spec in Hp. }
  apply contains_false in Hp. by right.
Qed.

Lemma sales_run (msg : pystr) (w : world) :
  SalesAgent.handle_message_fallback msg w
  = (Ok (match SalesAgent.recommendations msg with
         | [] => SalesAgent.filler
         | recs => SalesAgent.suggestion_prefix ++ join (" "%py) recs
         end), w).
Proof.
  unfold SalesAgent.handle_message_fallback.
  by destruct (SalesAgent.recommendations msg).
Qed.

Lemma sales_suggestion_text (msg : pystr) :
  exists s, forall w, SalesAgent.handle_message_fallback msg w = (Ok s, w).
Proof. eexists. intros w. apply sales_run. Qed.

(** C2. The sales agent answers with a suggestion, a text that begins
    with "Sugerencias adicionales:", exactly when the lowercased message
    mentions "uniforme", "cinturon" or "proteccion". The keywords are
    tried in that order and the first found decides; the answer carries
    that one suggestion and no other. With no keyword the answer is the
    filler. The call changes nothing and raises nothing. *)
Theorem sales_suggestion_iff_keyword (msg : pystr) (w : world) :
  exists s,
    SalesAgent.handle_message_fallback msg w = (Ok s, w)
    /\ (begins_with ("Sugerencias adicionales:"%py) s
        <-> mentions ["uniforme"%py; "cinturon"%py; "proteccion"%py] (lower msg))
    /\ (occurs ("uniforme"%py) (lower msg) ->
        s = "Sugerencias adicionales: "%py ++ SalesAgent.for_uniform)
    /\ (~ occurs ("uniforme"%py) (lower msg) ->
        occurs ("cinturon"%py) (lower msg) ->
        s = "Sugerencias adicionales: "%py ++ SalesAgent.for_belt)
    /\ (~ occurs ("uniforme"%py) (lower msg) ->
        ~ occurs ("cinturon"%py) (lower msg) ->
        occurs ("proteccion"%py) (lower msg) ->
        s = "Sugerencias adicionales: "%py ++ SalesAgent.for_protection)
    /\ (~ mentions ["uniforme"%py; "cinturon"%py; "proteccion"%py] (lower msg) ->
        s = "Continuando con la conversación..."%py).
Proof.
  eexists. split; [apply sales_run|].
  assert (Hm : mentions ["uniforme"%py; "cinturon"%py; "proteccion"%py] (lower msg)
               <-> occurs ("uniforme"%py) (lower msg)
                   \/ occurs ("cinturon"%py) (lower msg)
                   \/ occurs ("proteccion"%py) (lower msg)).
  { unfold mentions. split.
    - intros (k & Hin & Hk). simpl in Hin.
      destruct Hin as [<- | [<- | [<- | []]]]; auto.
    - intros [Hk | [Hk | Hk]]; eexists; (split; [|exact Hk]); simpl; auto. }
  rewrite Hm.
  destruct (recommendations_cases msg)
    as [[Hu ->] | [(Hu & Hc & ->) | [(Hu & Hc & Hp & ->) | (Hu & Hc & Hp & ->)]]];
    cbn [join].
  - split; [split; [tauto | intros _; apply suggestion_prefix_begins]|].
    split; [reflexivity|].
    repeat (split; [vacuous|]). vacuous.
  - split; [split; [tauto | intros _; apply suggestion_prefix_begins]|].
    split; [vacuous|]. split; [reflexivity|].
    split; vacuous.
  - split; [split; [tauto | intros _; apply suggestion_prefix_begins]|].
    do 2 (split; [vacuous|]). split; [reflexivity|]. vacuous.
  - split.
    { split; [|vacuous]. intros Hb. by apply filler_is_no_suggestion in Hb. }
    do 3 (split; [vacuous|]). reflexivity.
Qed.

End sales.

(** ** The tools *)

Lemma collaborator_calls_no_tool (delta : list event) :
  forallb is_collaborator_call delta = true ->
  List.filter is_tool_invocation delta = []
  /\ List.filter is_track_conversation delta = [].
Proof.
  induction delta as [|ev delta IH]; [done|].
  simpl. rewrite andb_true_iff. intros [Hev Hd].
  destruct (IH Hd) as [-> ->]. by destruct ev.
Qed.

Lemma extends_nil (w : world) : extends w [] = w.
Proof. destruct w. unfold extends. simpl. by rewrite app_nil_r. Qed.

Lemma extends_extends (w : world) (d1 d2 : list event) :
  extends (extends w d1) d2 = extends w (d1 ++ d2).
Proof. unfold extends. simpl. by rewrite app_assoc. Qed.

Lemma new_events_extends (w : world) (delta : list event) :
  new_events w (extends w delta) = delta.
Proof. apply new_events_app. Qed.

Section tools.
Context `{Builtins} (env : Env).

Lemma promotion_handle_run (w : world) :
  PromotionSearchTool.handle env w =
  match QdrantService env with
  | Raise e => (Ok (PromotionSearchTool.error_prefix ++ exn_text e), w)
  | Ok _ =>
    let w1 := extends w [EvSearchSimilar PromotionSearchTool.neutral_vector 10
                                         PromotionSearchTool.filters] in
    match search_similar env PromotionSearchTool.neutral_vector 10
                         PromotionSearchTool.filters with
    | Raise e => (Ok (PromotionSearchTool.error_prefix ++ exn_text e), w1)
    | Ok [] => (Ok PromotionSearchTool.no_promotions, w1)
    | Ok (first :: more) =>
      match for_each PromotionSearchTool.format_result (first :: more) with
      | Ok promotions => (Ok (str_ (PList promotions)), w1)
      | Raise e => (Ok (PromotionSearchTool.error_prefix ++ exn_text e), w1)
      end
    end
  end.
Proof.
  unfold PromotionSearchTool.handle, PromotionSearchTool.body.
  unfold_monad.
  destruct (QdrantService env) as [[]|e]; [|done].
  fold (extends w [EvSearchSimilar PromotionSearchTool.neutral_vector 10
                                   PromotionSearchTool.filters]).
  cbv zeta.
  destruct (search_similar env _ _ _) as [[|first more]|e]; try done.
  by destruct (for_each _ _).
Qed.

Lemma product_handle_run (self : ProductSearchTool.t) (w : world) :
  let failed e w' := (Ok (ProductSearchTool.error_prefix ++ exn_text e), w') in
  ProductSearchTool.handle env self w =
  match QdrantService env with
  | Raise e => failed e w
  | Ok _ =>
  match import_EmbeddingService env with
  | Raise e => failed e w
  | Ok _ =>
  match EmbeddingService env with
  | Raise e => failed e w
  | Ok _ =>
    let w1 := extends w [EvEncodeQuery (ProductSearchTool.query self)] in
    match encode_query env (ProductSearchTool.query self) with
    | Raise e => failed e w1
    | Ok query_embedding =>
      let w2 :=
        extends w [EvEncodeQuery (ProductSearchTool.query self);
                   EvSearchSimilar query_embedding
                                   (ProductSearchTool.max_results self)
                                   (ProductSearchTool.filters_of self)] in
      match search_similar env query_embedding
                           (ProductSearchTool.max_results self)
                           (ProductSearchTool.filters_of self) with
      | Raise e => failed e w2
      | Ok [] => (Ok ProductSearchTool.no_results, w2)
      | Ok (first :: more) =>
        match for_each ProductSearchTool.format_result (first :: more) with
        | Ok formatted => (Ok (str_ (PList formatted)), w2)
        | Raise e => failed e w2
        end
      end
    end
  end end end.
Proof.
  unfold ProductSearchTool.handle, ProductSearchTool.body.
  unfold_monad. cbv zeta.
  destruct (QdrantService env) as [[]|e]; [|done].
  destruct (import_EmbeddingService env) as [[]|e]; [|done].
  destruct (EmbeddingService env) as [[]|e]; [|done].
  fold (extends w [EvEncodeQuery (ProductSearchTool.query self)]).
  destruct (encode_query env _) as [query_embedding|e]; [|done].
  unfold extends at 1 2 3. simpl w_heap. simpl w_trace. rewrite <- app_assoc.
  simpl app.
  fold (extends w [EvEncodeQuery (ProductSearchTool.query self);
                   EvSearchSimilar query_embedding
                                   (ProductSearchTool.max_results self)
                                   (ProductSearchTool.filters_of self)]).
  destruct (search_similar env _ _ _) as [[|first more]|e]; try done.
  by destruct (for_each _ _).
Qed.

Lemma history_handle_run (self : UserHistoryTool.t) (w : world) :
  let failed e w' := (Ok (UserHistoryTool.error_prefix ++ exn_text e), w') in
  UserHistoryTool.handle env self w =
  match import_controllers env with
  | Raise e => failed e w
  | Ok _ =>
  match ChatController env with
  | Raise e => failed e w
  | Ok _ =>
    let w1 := extends w [EvGetChatsByUsuario (UserHistoryTool.user_id self)] in
    match get_chats_by_usuario env (UserHistoryTool.user_id self) with
    | Raise e => failed e w1
    | Ok [] => (Ok UserHistoryTool.no_history, w1)
    | Ok (latest_chat :: _) =>
      match MensajeController env with
      | Raise e => failed e w1
      | Ok _ =>
        let w2 :=
          extends w [EvGetChatsByUsuario (UserHistoryTool.user_id self);
                     EvGetMensajesByChat (chat_id latest_chat)
                                         (UserHistoryTool.limit self) 0] in
        match get_mensajes_by_chat env (chat_id latest_chat)
                                   (UserHistoryTool.limit self) 0 with
        | Raise e => failed e w2
        | Ok recent_messages =>
          (Ok (str_ (PList (List.map UserHistoryTool.format_message
                                     recent_messages))), w2)
        end
      end
    end
  end end.
Proof.
  unfold UserHistoryTool.handle, UserHistoryTool.body.
  unfold_monad. cbv zeta.
  destruct (import_controllers env) as [[]|e]; [|done].
  destruct (ChatController env) as [[]|e]; [|done].
  fold (extends w [EvGetChatsByUsuario (UserHistoryTool.user_id self)]).
  destruct (get_chats_by_usuario env _) as [[|latest_chat older]|e]; try done.
  destruct (MensajeController env) as [[]|e]; [|done].
  unfold extends at 1 2. simpl w_heap. simpl w_trace. rewrite <- app_assoc.
  simpl app.
  fold (extends w [EvGetChatsByUsuario (UserHistoryTool.user_id self);
                   EvGetMensajesByChat (chat_id latest_chat)
                                       (UserHistoryTool.limit self) 0]).
  by destruct (get_mensajes_by_chat env _ _ _).
Qed.

Ltac by_cases_on_collaborators :=
  repeat match goal with
         | |- context [match ?o with Ok _ => _ | Raise _ => _ end] =>
           destruct o as [?|?] eqn:?
         | |- context [match ?l with [] => _ | _ :: _ => _ end] =>
           destruct l as [|? ?] eqn:?
         end.

Lemma promotion_handle_effects (w : world) :
  exists s delta,
    PromotionSearchTool.handle env w = (Ok s, extends w delta)
    /\ forallb is_collaborator_call delta = true.
Proof.
  rewrite promotion_handle_run. cbv zeta.
  by_cases_on_collaborators;
    first [ by eexists _, [_] | (eexists _, []; by rewrite extends_nil) ].
Qed.

Lemma product_handle_effects (self : ProductSearchTool.t) (w : world) :
  exists s delta,
    ProductSearchTool.handle env self w = (Ok s, extends w delta)
    /\ forallb is_collaborator_call delta = true.
Proof.
  rewrite product_handle_run. cbv zeta.
  by_cases_on_collaborators;
    first [ by eexists _, [_; _] | by eexists _, [_]
          | (eexists _, []; by rewrite extends_nil) ].
Qed.

Lemma history_handle_effects (self : UserHistoryTool.t) (w : world) :
  exists s delta,
    UserHistoryTool.handle env self w = (Ok s, extends w delta)
    /\ forallb is_collaborator_call delta = true.
Proof.
  rewrite history_handle_run. cbv zeta.
  by_cases_on_collaborators;
    first [ by eexists _, [_; _] | by eexists _, [_]
          | (eexists _, []; by rewrite extends_nil) ].
Qed.

(** Which call raised is read off the hypothesis; it is the one the run of
    the tool stopped at. *)
Ltac first_failure :=
  repeat match goal with
         | Hr : _ \/ _ |- _ => destruct Hr as [Hr | Hr]
         | Hr : _ /\ _ |- _ => destruct Hr as [? Hr]
         | Hr : exists _, _ |- _ => destruct Hr as [? Hr]
         end;
  congruence.

(** C6. Each of the three tools returns a text and never raises; when a
    collaborator raises inside [handle], the text is the fixed error
    prefix of the tool followed by the text of the exception. *)
Theorem tools_turn_failures_into_text :
  (forall self w, exists s w',
      ProductSearchTool.handle env self w = (Ok s, w')
      /\ forall e, product_collaborator_raises env self e ->
           begins_with ("Error ejecutando búsqueda: "%py) s
           /\ s = "Error ejecutando búsqueda: "%py ++ exn_text e)
  /\ (forall w, exists s w',
        PromotionSearchTool.handle env w = (Ok s, w')
        /\ forall e, promotion_collaborator_raises env e ->
             begins_with ("Error obteniendo promociones: "%py) s
             /\ s = "Error obteniendo promociones: "%py ++ exn_text e)
  /\ (forall self w, exists s w',
        UserHistoryTool.handle env self w = (Ok s, w')
        /\ forall e, history_collaborator_raises env self e ->
             begins_with ("Error obteniendo historial: "%py) s
             /\ s = "Error obteniendo historial: "%py ++ exn_text e).
Proof.
  assert (Hprefix : forall (prefix s : pystr) (e : exn),
             s = prefix ++ exn_text e ->
             begins_with prefix s /\ s = prefix ++ exn_text e).
  { intros prefix s e ->. split; [by exists (exn_text e) | done]. }
  split; [ | split ].
  - intros self w. rewrite product_handle_run. cbv zeta.
    by_cases_on_collaborators; do 2 eexists; (split; [reflexivity|]);
      intros e' Hraise; apply Hprefix;
      unfold product_collaborator_raises in Hraise;
      fold ProductSearchTool.error_prefix; first_failure.
  - intros w. rewrite promotion_handle_run. cbv zeta.
    by_cases_on_collaborators; do 2 eexists; (split; [reflexivity|]);
      intros e' Hraise; apply Hprefix;
      unfold promotion_collaborator_raises in Hraise;
      fold PromotionSearchTool.error_prefix; first_failure.
  - intros self w. rewrite history_handle_run. cbv zeta.
    by_cases_on_collaborators; do 2 eexists; (split; [reflexivity|]);
      intros e' Hraise; apply Hprefix;
      unfold history_collaborator_raises in Hraise;
      fold UserHistoryTool.error_prefix; first_failure.
Qed.

(** C8. The vector the promotion search sends has 384 components, all
    zero; the filters are type = promocion and activa = True. The tool
    issues no other search: once the client is constructed it issues
    exactly this one, with limit 10. When that search finds nothing the
    answer is the no-promotions message. *)
Theorem promotion_search_query (w : world) :
  length PromotionSearchTool.neutral_vector = 384%nat
  /\ (forall x, In x PromotionSearchTool.neutral_vector -> x = 0%float)
  /\ PromotionSearchTool.filters
     = [ ("type"%py, PStr ("promocion"%py)); ("activa"%py, PBool true) ]
  /\ exists s w',
      PromotionSearchTool.handle env w = (Ok s, w')
      /\ (new_events w w' = []
          \/ new_events w w'
             = [EvSearchSimilar PromotionSearchTool.neutral_vector 10
                                PromotionSearchTool.filters])
      /\ (QdrantService env = Ok tt ->
          new_events w w'
          = [EvSearchSimilar PromotionSearchTool.neutral_vector 10
                             PromotionSearchTool.filters])
      /\ (QdrantService env = Ok tt ->
          search_similar env PromotionSearchTool.neutral_vector 10
                         PromotionSearchTool.filters = Ok [] ->
          s = "No hay promociones activas en este momento."%py).
Proof.
  split; [apply repeat_length|].
  split; [intros x Hx; by apply repeat_spec in Hx|].
  split; [reflexivity|].
  rewrite promotion_handle_run. cbv zeta.
  destruct (QdrantService env) as [[]|e] eqn:Hq.
  2: { exists (PromotionSearchTool.error_prefix ++ exn_text e), w.
       split; [reflexivity|].
       rewrite <- (extends_nil w) at 2 4. rewrite new_events_extends.
       split; [by left|]. split; intros; discriminate. }
  destruct (search_similar env _ _ _) as [[|first more]|e] eqn:Hs.
  3: { do 2 eexists. split; [reflexivity|]. rewrite new_events_extends.
       split; [by right|]. split; [done|]. intros; discriminate. }
  - do 2 eexists. split; [reflexivity|]. rewrite new_events_extends.
    split; [by right|]. split; [done|]. intros _ _. reflexivity.
  - destruct (for_each _ _); do 2 eexists; (split; [reflexivity|]);
      rewrite new_events_extends;
      (split; [by right|]); (split; [done|]); intros; discriminate.
Qed.

End tools.

(** ** KnowledgeAgent *)

Section knowledge.
Context `{Builtins} (env : Env).

Lemma asks_for_promotions_spec (msg : pystr) :
  KnowledgeAgent.asks_for_promotions msg = true
  <-> mentions ["promocion"%py; "descuento"%py; "oferta"%py] (lower msg).
Proof.
  unfold KnowledgeAgent.asks_for_promotions, mentions.
  rewrite !orb_true_iff, !contains_spec. split.
  - intros [[Hk | Hk] | Hk]; eexists; (split; [|exact Hk]); simpl; auto.
  - intros (k & Hin & Hk). simpl in Hin.
    destruct Hin as [<- | [<- | [<- | []]]]; auto.
Qed.

Lemma knowledge_run (msg : pystr) (w : world) :
  KnowledgeAgent.handle_message_fallback env msg w =
  if KnowledgeAgent.asks_for_promotions msg
  then PromotionSearchTool.handle env (extends w [EvPromotionSearchTool])
  else ProductSearchTool.handle env (ProductSearchTool.new msg)
         (extends w [EvProductSearchTool msg None 5]).
Proof.
  unfold KnowledgeAgent.handle_message_fallback.
  destruct (KnowledgeAgent.asks_for_promotions msg).
  - destruct (promotion_handle_effects env (extends w [EvPromotionSearchTool]))
      as (s & delta & Hrun & _).
    rewrite Hrun. apply try_except_ok.
    unfold call, log, mbind, M_bind. simpl. exact Hrun.
  - destruct (product_handle_effects env (ProductSearchTool.new msg)
                (extends w [EvProductSearchTool msg None 5]))
      as (s & delta & Hrun & _).
    rewrite Hrun. apply try_except_ok.
    unfold call, log, mbind, M_bind. simpl. exact Hrun.
Qed.

Lemma knowledge_effects (msg : pystr) (w : world) :
  exists s tool delta,
    KnowledgeAgent.handle_message_fallback env msg w
    = (Ok s, extends w (tool :: delta))
    /\ is_tool_invocation tool = true
    /\ forallb is_collaborator_call delta = true.
Proof.
  rewrite knowledge_run.
  destruct (KnowledgeAgent.asks_for_promotions msg).
  - destruct (promotion_handle_effects env (extends w [EvPromotionSearchTool]))
      as (s & delta & -> & Hd).
    exists s, EvPromotionSearchTool, delta. by rewrite extends_extends.
  - destruct (product_handle_effects env (ProductSearchTool.new msg)
                (extends w [EvProductSearchTool msg None 5]))
      as (s & delta & -> & Hd).
    exists s, (EvProductSearchTool msg None 5), delta.
    by rewrite extends_extends.
Qed.

(** C1. One call of the knowledge agent invokes exactly one tool. When
    the lowercased message mentions "promocion", "descuento" or "oferta"
    the tool is the promotion search and the answer is what that tool
    returns; otherwise the tool is the product search, built with the
    message as it came as its query, and the answer is what that tool
    returns. *)
Theorem knowledge_invokes_exactly_one_tool (msg : pystr) (w : world) :
  exists s w',
    KnowledgeAgent.handle_message_fallback env msg w = (Ok s, w')
    /\ (mentions ["promocion"%py; "descuento"%py; "oferta"%py] (lower msg) ->
        List.filter is_tool_invocation (new_events w w') = [EvPromotionSearchTool]
        /\ PromotionSearchTool.handle env (extends w [EvPromotionSearchTool])
           = (Ok s, w'))
    /\ (~ mentions ["promocion"%py; "descuento"%py; "oferta"%py] (lower msg) ->
        List.filter is_tool_invocation (new_events w w')
        = [EvProductSearchTool msg None 5]
        /\ ProductSearchTool.handle env
             {| ProductSearchTool.query := msg;
                ProductSearchTool.category := None;
                ProductSearchTool.max_results := 5 |}
             (extends w [EvProductSearchTool msg None 5])
           = (Ok s, w')).
Proof.
  destruct (knowledge_effects msg w) as (s & tool & delta & Hrun & Htool & Hd).
  exists s, (extends w (tool :: delta)). split; [exact Hrun|].
  rewrite new_events_extends. cbn [List.filter]. rewrite Htool.
  apply collaborator_calls_no_tool in Hd as [-> _].
  rewrite knowledge_run in Hrun.
  destruct (KnowledgeAgent.asks_for_promotions msg) eqn:Hasks.
  - apply asks_for_promotions_spec in Hasks.
    destruct (promotion_handle_effects env (extends w [EvPromotionSearchTool]))
      as (s1 & d1 & Hrun1 & _).
    rewrite Hrun1, extends_extends in Hrun. injection Hrun as -> Htr.
    apply app_inv_head in Htr. injection Htr as <- <-.
    split; [intros _ | vacuous].
    split; [done|]. by rewrite Hrun1, extends_extends.
  - assert (Hn : ~ mentions ["promocion"%py; "descuento"%py; "oferta"%py]
                    (lower msg)).
    { rewrite <- asks_for_promotions_spec. congruence. }
    destruct (product_handle_effects env (ProductSearchTool.new msg)
                (extends w [EvProductSearchTool msg None 5]))
      as (s1 & d1 & Hrun1 & _).
    rewrite Hrun1, extends_extends in Hrun. injection Hrun as -> Htr.
    apply app_inv_head in Htr. injection Htr as <- <-.
    split; [vacuous | intros _].
    split; [done|].
    change {| ProductSearchTool.query := msg;
              ProductSearchTool.category := None;
              ProductSearchTool.max_results := 5 |}
      with (ProductSearchTool.new msg).
    by rewrite Hrun1, extends_extends.
Qed.

End knowledge.

(** ** The metrics dict and its lists *)

Lemma bind_ok {A B} (m : M A) (k : A -> M B) w b w' :
  (m ≫= k) w = (Ok b, w') ->
  exists a w1, m w = (Ok a, w1) /\ k a w1 = (Ok b, w').
Proof.
  unfold mbind, M_bind. destruct (m w) as [[a|e] w1]; [|discriminate].
  intros Hk. by exists a, w1.
Qed.

Lemma bind_run {A B} (m : M A) (k : A -> M B) w a w1 :
  m w = (Ok a, w1) -> (m ≫= k) w = k a w1.
Proof. unfold mbind, M_bind. by intros ->. Qed.

Lemma metrics_keys_differ :
  "total_messages"%py <> "user_satisfaction"%py
  /\ "total_messages"%py <> "conversion_indicators"%py
  /\ "user_satisfaction"%py <> "conversion_indicators"%py.
Proof. repeat split; discriminate. Qed.

Section heap_steps.
Context `{Builtins}.

Lemma getitem_run (l : loc) (key : pystr) h tr d v :
  h !! l = Some (ODict d) -> d !! key = Some v ->
  AnalyticsAgent.getitem l key (World h tr) = (Ok v, World h tr).
Proof.
  intros Hl Hk. unfold AnalyticsAgent.getitem, AnalyticsAgent.deref.
  unfold_monad. simpl. by rewrite Hl, Hk.
Qed.

Lemma setitem_run (l : loc) (key : pystr) (v : val) h tr d :
  h !! l = Some (ODict d) ->
  AnalyticsAgent.setitem l key v (World h tr)
  = (Ok tt, World (<[l := ODict (<[key := v]> d)]> h) tr).
Proof.
  intros Hl. unfold AnalyticsAgent.setitem, AnalyticsAgent.deref.
  unfold_monad. simpl. by rewrite Hl.
Qed.

Lemma append_run (l : loc) (x : val) h tr xs :
  h !! l = Some (OList xs) ->
  AnalyticsAgent.append (VRef l) x (World h tr)
  = (Ok tt, World (<[l := OList (xs ++ [x])]> h) tr).
Proof.
  intros Hl. unfold AnalyticsAgent.append, AnalyticsAgent.deref.
  unfold_monad. simpl. by rewrite Hl.
Qed.

Lemma getitem_ok (l : loc) (key : pystr) w v w' :
  AnalyticsAgent.getitem l key w = (Ok v, w') ->
  w' = w /\ exists d, w_heap w !! l = Some (ODict d) /\ d !! key = Some v.
Proof.
  unfold AnalyticsAgent.getitem, AnalyticsAgent.deref. unfold_monad.
  destruct (w_heap w !! l) as [[d|xs]|] eqn:Hl; try discriminate.
  destruct (d !! key) as [v0|] eqn:Hk; [|discriminate].
  intros [= -> ->]. split; [done|]. by exists d.
Qed.

Lemma iadd_1_ok (v : val) w v' w' :
  AnalyticsAgent.iadd_1 v w = (Ok v', w') ->
  w' = w /\ exists n, v = VInt n /\ v' = VInt (n + 1).
Proof.
  unfold AnalyticsAgent.iadd_1, AnalyticsAgent.deref. unfold_monad.
  destruct v as [n|s|l]; try discriminate.
  - intros [= <- <-]. split; [done|]. by exists n.
  - destruct (w_heap w !! l) as [[d|xs]|]; discriminate.
Qed.

Lemma setitem_ok (l : loc) (key : pystr) (v : val) w w' :
  AnalyticsAgent.setitem l key v w = (Ok tt, w') ->
  exists d, w_heap w !! l = Some (ODict d)
            /\ w' = World (<[l := ODict (<[key := v]> d)]> (w_heap w)) (w_trace w).
Proof.
  unfold AnalyticsAgent.setitem, AnalyticsAgent.deref. unfold_monad.
  destruct (w_heap w !! l) as [[d|xs]|] eqn:Hl; try discriminate.
  intros [= <-]. by exists d.
Qed.

Lemma append_ok (v x : val) w w' :
  AnalyticsAgent.append v x w = (Ok tt, w') ->
  exists l xs, v = VRef l /\ w_heap w !! l = Some (OList xs)
               /\ w' = World (<[l := OList (xs ++ [x])]> (w_heap w)) (w_trace w).
Proof.
  unfold AnalyticsAgent.append, AnalyticsAgent.deref. unfold_monad.
  destruct v as [n|s|l]; try discriminate.
  destruct (w_heap w !! l) as [[d|xs]|] eqn:Hl; try discriminate.
  intros [= <-]. by exists l, xs.
Qed.

End heap_steps.

Lemma metrics_at_intro (h : heap) (l ls lc : loc) d n xs ys :
  h !! l = Some (ODict d) ->
  d !! "total_messages"%py = Some (VInt n) ->
  d !! "user_satisfaction"%py = Some (VRef ls) ->
  d !! "conversion_indicators"%py = Some (VRef lc) ->
  ls <> lc ->
  h !! ls = Some (OList xs) ->
  h !! lc = Some (OList ys) ->
  Metrics.at_ h l
  = Some {| Metrics.total_messages := n;
            Metrics.user_satisfaction := xs;
            Metrics.conversion_indicators := ys |}.
Proof.
  intros Hl Ht Hs Hc Hne Hls Hlc.
  unfold Metrics.at_, Metrics.of_dict, Metrics.stored_list.
  rewrite Hl, Ht, Hs, Hc. rewrite bool_decide_eq_false_2 by done.
  by rewrite Hls, Hlc.
Qed.

Lemma metrics_at_inv (h : heap) (l : loc) (m : Metrics.t) :
  Metrics.at_ h l = Some m ->
  exists d ls lc,
    h !! l = Some (ODict d)
    /\ d !! "total_messages"%py = Some (VInt (Metrics.total_messages m))
    /\ d !! "user_satisfaction"%py = Some (VRef ls)
    /\ d !! "conversion_indicators"%py = Some (VRef lc)
    /\ ls <> lc
    /\ h !! ls = Some (OList (Metrics.user_satisfaction m))
    /\ h !! lc = Some (OList (Metrics.conversion_indicators m)).
Proof.
  unfold Metrics.at_, Metrics.of_dict, Metrics.stored_list.
  destruct (h !! l) as [[d|?]|] eqn:Hl; try discriminate.
  destruct (d !! "total_messages"%py) as [[n|?|?]|] eqn:Ht; try discriminate.
  destruct (d !! "user_satisfaction"%py) as [[?|?|ls]|] eqn:Hs; try discriminate.
  destruct (d !! "conversion_indicators"%py) as [[?|?|lc]|] eqn:Hc;
    try discriminate.
  case_bool_decide as Hne; [discriminate|].
  destruct (h !! ls) as [[?|xs]|] eqn:Hls; try discriminate.
  destruct (h !! lc) as [[?|ys]|] eqn:Hlc; try discriminate.
  simpl. intros [= <-]. by exists d, ls, lc.
Qed.

(** ** AnalyticsAgent *)

Section analytics.
Context `{Builtins}.

Lemma maybe_append_run (c : bool) (l lx : loc) (key : pystr) (x : val)
      h tr d xs :
  h !! l = Some (ODict d) ->
  d !! key = Some (VRef lx) ->
  h !! lx = Some (OList xs) ->
  (if c then
     held ← AnalyticsAgent.getitem l key; AnalyticsAgent.append held x
   else mret tt) (World h tr)
  = (Ok tt, World (if c then <[lx := OList (xs ++ [x])]> h else h) tr).
Proof.
  intros Hl Hk Hlx. destruct c; [|done].
  erewrite bind_run by (by eapply getitem_run).
  by apply append_run.
Qed.

(** One call on well-formed metrics: it returns, and the metrics read
    afterwards are the ones before with the counter one higher and the
    lists extended as the keywords say. *)
Lemma track_conversation_run (self : AnalyticsAgent.t)
      (user_msg bot_response : pystr) h tr (m : Metrics.t) :
  Metrics.of_agent h self = Some m ->
  exists h',
    AnalyticsAgent.track_conversation self user_msg bot_response (World h tr)
    = (Ok tt, World h' tr)
    /\ Metrics.of_agent h' self
       = Some {| Metrics.total_messages := Metrics.total_messages m + 1;
                 Metrics.user_satisfaction :=
                   Metrics.user_satisfaction m
                   ++ (if any_in AnalyticsAgent.positive_indicators (lower user_msg)
                       then [VStr "positive"%py] else []);
                 Metrics.conversion_indicators :=
                   Metrics.conversion_indicators m
                   ++ (if any_in AnalyticsAgent.conversion_indicators
                                 (lower user_msg)
                       then [VStr (slice_to 50 user_msg)] else []) |}.
Proof.
  intros Hm. unfold Metrics.of_agent in *.
  apply metrics_at_inv in Hm as (d & ls & lc & Hl & Ht & Hs & Hc & Hne & Hls & Hlc).
  destruct metrics_keys_differ as (Kts & Ktc & Ksc).
  set (l := AnalyticsAgent.conversation_metrics self) in *.
  assert (Hlls : l <> ls) by congruence.
  assert (Hllc : l <> lc) by congruence.
  unfold AnalyticsAgent.track_conversation. fold l.
  erewrite bind_run by (by eapply getitem_run).
  erewrite bind_run by reflexivity.
  erewrite bind_run by (by eapply setitem_run).
  set (d1 := <[_ := _]> d).
  set (h1 := <[l := ODict d1]> h).
  assert (Hl1 : h1 !! l = Some (ODict d1)) by apply lookup_insert_eq.
  assert (Hs1 : d1 !! "user_satisfaction"%py = Some (VRef ls)).
  { unfold d1. by rewrite lookup_insert_ne. }
  assert (Hc1 : d1 !! "conversion_indicators"%py = Some (VRef lc)).
  { unfold d1. by rewrite lookup_insert_ne. }
  assert (Ht1 : d1 !! "total_messages"%py
                = Some (VInt (Metrics.total_messages m + 1))).
  { unfold d1. apply lookup_insert_eq. }
  assert (Hls1 : h1 !! ls = Some (OList (Metrics.user_satisfaction m))).
  { unfold h1. by rewrite lookup_insert_ne. }
  assert (Hlc1 : h1 !! lc = Some (OList (Metrics.conversion_indicators m))).
  { unfold h1. by rewrite lookup_insert_ne. }
  erewrite bind_run by (by eapply maybe_append_run).
  set (c1 := any_in AnalyticsAgent.positive_indicators (lower user_msg)).
  set (c2 := any_in AnalyticsAgent.conversion_indicators (lower user_msg)).
  set (h2 := if c1 then _ else h1).
  assert (Hl2 : h2 !! l = Some (ODict d1)).
  { unfold h2. destruct c1; [by rewrite lookup_insert_ne | done]. }
  assert (Hls2 : h2 !! ls
                 = Some (OList (Metrics.user_satisfaction m
                                ++ (if c1 then [VStr "positive"%py] else [])))).
  { unfold h2. destruct c1; [apply lookup_insert_eq | by rewrite app_nil_r]. }
  assert (Hlc2 : h2 !! lc = Some (OList (Metrics.conversion_indicators m))).
  { unfold h2. destruct c1; [by rewrite lookup_insert_ne | done]. }
  erewrite maybe_append_run by done.
  eexists. split; [reflexivity|].
  eapply metrics_at_intro with (d := d1) (ls := ls) (lc := lc); try done.
  - destruct c2; [by rewrite lookup_insert_ne | done].
  - destruct c2; [by rewrite lookup_insert_ne | done].
  - destruct c2; [apply lookup_insert_eq | by rewrite app_nil_r].
Qed.

(** C4. One call of [track_conversation] on an agent's metrics returns
    and adds exactly 1 to total_messages. It appends "positive" to
    user_satisfaction when the lowercased message mentions "gracias",
    "perfecto", "excelente" or "me gusta", and leaves that list as it was
    otherwise. It appends the first 50 characters of the message (the
    whole message when it is shorter) to conversion_indicators when the
    lowercased message mentions "comprar", "precio", "disponible" or
    "stock", and leaves that list as it was otherwise. *)
Theorem track_conversation_counts (self : AnalyticsAgent.t)
        (user_msg bot_response : pystr) h tr (m : Metrics.t) :
  Metrics.of_agent h self = Some m ->
  exists h' m',
    AnalyticsAgent.track_conversation self user_msg bot_response (World h tr)
    = (Ok tt, World h' tr)
    /\ Metrics.of_agent h' self = Some m'
    /\ Metrics.total_messages m' = Metrics.total_messages m + 1
    /\ ((mentions ["gracias"%py; "perfecto"%py; "excelente"%py; "me gusta"%py]
                  (lower user_msg)
         /\ Metrics.user_satisfaction m'
            = Metrics.user_satisfaction m ++ [VStr "positive"%py])
        \/ (~ mentions ["gracias"%py; "perfecto"%py; "excelente"%py; "me gusta"%py]
                       (lower user_msg)
            /\ Metrics.user_satisfaction m' = Metrics.user_satisfaction m))
    /\ ((mentions ["comprar"%py; "precio"%py; "disponible"%py; "stock"%py]
                  (lower user_msg)
         /\ exists snippet,
             Metrics.conversion_indicators m'
             = Metrics.conversion_indicators m ++ [VStr snippet]
             /\ snippet = take 50 user_msg
             /\ (length snippet <= 50)%nat
             /\ ((length user_msg <= 50)%nat -> snippet = user_msg))
        \/ (~ mentions ["comprar"%py; "precio"%py; "disponible"%py; "stock"%py]
                       (lower user_msg)
            /\ Metrics.conversion_indicators m'
               = Metrics.conversion_indicators m)).
Proof.
  intros Hm.
  destruct (track_conversation_run self user_msg bot_response h tr m Hm)
    as (h' & Hrun & Hm').
  eexists h', _. split; [exact Hrun|]. split; [exact Hm'|].
  cbn [Metrics.total_messages Metrics.user_satisfaction
       Metrics.conversion_indicators].
  split; [reflexivity|]. split.
  - destruct (any_in AnalyticsAgent.positive_indicators (lower user_msg)) eqn:Hp.
    + left. by apply any_in_spec in Hp.
    + right. apply any_in_false in Hp. by rewrite app_nil_r.
  - destruct (any_in AnalyticsAgent.conversion_indicators (lower user_msg)) eqn:Hc.
    + left. apply any_in_spec in Hc. split; [exact Hc|].
      exists (slice_to 50 user_msg). split; [done|]. split; [done|].
      split; [apply slice_to_length|]. intros Hshort. by apply take_ge.
    + right. apply any_in_false in Hc. by rewrite app_nil_r.
Qed.

(** C9. [track_conversation] does not look at [bot_response]: with the
    same message and the same starting state, two calls that differ only
    in the response end in the same state with the same result. *)
Theorem track_conversation_ignores_response (self : AnalyticsAgent.t)
        (user_msg response1 response2 : pystr) (w : world) :
  AnalyticsAgent.track_conversation self user_msg response1 w
  = AnalyticsAgent.track_conversation self user_msg response2 w.
Proof. reflexivity. Qed.

End analytics.

(** ** Construction and conversations *)

Lemma new_object_run (o : obj) h tr :
  exists l,
    AnalyticsAgent.new_object o (World h tr) = (Ok l, World (<[l := o]> h) tr)
    /\ h !! l = None.
Proof.
  exists (fresh (dom h)). split; [reflexivity|].
  apply not_elem_of_dom, is_fresh.
Qed.

(** Construction allocates the three objects and touches no other. *)
Lemma analytics_init_run h tr :
  exists self h',
    AnalyticsAgent.init (World h tr) = (Ok self, World h' tr)
    /\ Metrics.of_agent h' self = Some no_metrics
    /\ (forall l o, h !! l = Some o -> h' !! l = Some o).
Proof.
  unfold AnalyticsAgent.init.
  destruct (new_object_run (OList []) h tr) as (l1 & R1 & F1).
  erewrite bind_run by exact R1.
  destruct (new_object_run (OList []) (<[l1 := OList []]> h) tr) as (l2 & R2 & F2).
  erewrite bind_run by exact R2.
  match goal with
  | |- context [AnalyticsAgent.new_object ?o] =>
    destruct (new_object_run o (<[l2 := OList []]> (<[l1 := OList []]> h)) tr)
      as (l3 & R3 & F3)
  end.
  erewrite bind_run by exact R3.
  assert (l2 <> l1).
  { intros ->. by rewrite lookup_insert_eq in F2. }
  assert (l3 <> l2).
  { intros ->. by rewrite lookup_insert_eq in F3. }
  assert (l3 <> l1).
  { intros ->. rewrite lookup_insert_ne, lookup_insert_eq in F3; done. }
  destruct metrics_keys_differ as (Kts & Ktc & Ksc).
  eexists _, _. split; [reflexivity|]. split.
  - unfold Metrics.of_agent. cbn [AnalyticsAgent.conversation_metrics].
    eapply metrics_at_intro with (ls := l1) (lc := l2).
    + apply lookup_insert_eq.
    + apply lookup_insert_eq.
    + rewrite lookup_insert_ne by done. apply lookup_insert_eq.
    + rewrite !lookup_insert_ne by done. apply lookup_insert_eq.
    + done.
    + rewrite !lookup_insert_ne by done. apply lookup_insert_eq.
    + rewrite lookup_insert_ne by done. apply lookup_insert_eq.
  - rewrite lookup_insert_ne in F2 by done.
    rewrite !lookup_insert_ne in F3 by done.
    intros l o Hl.
    rewrite !lookup_insert_ne; [done | congruence..].
Qed.

Section conversations.
Context `{Builtins}.

Lemma track_all_run (self : AnalyticsAgent.t) (calls : list (pystr * pystr)) :
  forall h tr (m : Metrics.t),
    Metrics.of_agent h self = Some m ->
    exists h' m',
      track_all self calls (World h tr) = (Ok tt, World h' tr)
      /\ Metrics.of_agent h' self = Some m'
      /\ Metrics.total_messages m'
         = Metrics.total_messages m + Z.of_nat (length calls)
      /\ (length (Metrics.user_satisfaction m')
          <= length (Metrics.user_satisfaction m) + length calls)%nat
      /\ (length (Metrics.conversion_indicators m')
          <= length (Metrics.conversion_indicators m) + length calls)%nat
      /\ (Forall short_text (Metrics.conversion_indicators m) ->
          Forall short_text (Metrics.conversion_indicators m')).
Proof.
  induction calls as [|[user_msg bot_response] calls IH]; intros h tr m Hm.
  - exists h, m. simpl. repeat split; [done | lia..| done].
  - destruct (track_conversation_run self user_msg bot_response h tr m Hm)
      as (h1 & Hrun & Hm1).
    destruct (IH h1 tr _ Hm1) as (h' & m' & Hall & Hm' & Ht & Hs & Hc & Hshort).
    exists h', m'. cbn [track_all].
    erewrite bind_run by exact Hrun.
    split; [exact Hall|]. split; [exact Hm'|].
    cbn [Metrics.total_messages Metrics.user_satisfaction
         Metrics.conversion_indicators] in *.
    rewrite length_app in Hs, Hc.
    split; [rewrite Ht; cbn [length]; lia|].
    split.
    { destruct (any_in AnalyticsAgent.positive_indicators _);
        cbn [length] in *; lia. }
    split.
    { destruct (any_in AnalyticsAgent.conversion_indicators _);
        cbn [length] in *; lia. }
    intros Hm0. apply Hshort. apply Forall_app. split; [exact Hm0|].
    destruct (any_in AnalyticsAgent.conversion_indicators _); [|constructor].
    constructor; [|constructor].
    exists (slice_to 50 user_msg). split; [done | apply slice_to_length].
Qed.

(** C10. Construct an analytics agent, in any world, and make any
    sequence of [track_conversation] calls: every call returns,
    total_messages is the number of calls, neither list is longer than
    total_messages, and every element of conversion_indicators is a text
    of at most 50 characters. *)
Theorem metrics_invariant (w0 : world) (calls : list (pystr * pystr)) :
  exists self w1 w2 m,
    AnalyticsAgent.init w0 = (Ok self, w1)
    /\ Metrics.of_agent (w_heap w1) self = Some no_metrics
    /\ track_all self calls w1 = (Ok tt, w2)
    /\ Metrics.of_agent (w_heap w2) self = Some m
    /\ Metrics.total_messages m = Z.of_nat (length calls)
    /\ Z.of_nat (length (Metrics.user_satisfaction m)) <= Metrics.total_messages m
    /\ Z.of_nat (length (Metrics.conversion_indicators m))
       <= Metrics.total_messages m
    /\ Forall short_text (Metrics.conversion_indicators m).
Proof.
  destruct w0 as [h tr].
  destruct (analytics_init_run h tr) as (self & h1 & Hinit & Hm1 & _).
  destruct (track_all_run self calls h1 tr no_metrics Hm1)
    as (h2 & m & Hall & Hm & Ht & Hs & Hc & Hshort).
  exists self, (World h1 tr), (World h2 tr), m.
  cbn [no_metrics Metrics.total_messages Metrics.user_satisfaction
       Metrics.conversion_indicators length] in *.
  repeat split; try done; try lia.
  apply Hshort. constructor.
Qed.

End conversations.

(** ** get_metrics *)

Lemma metrics_at_agree (h h2 : heap) (l : loc) (m : Metrics.t) :
  (forall l', is_Some (h !! l') -> h2 !! l' = h !! l') ->
  Metrics.at_ h l = Some m ->
  Metrics.at_ h2 l = Some m.
Proof.
  intros Hagree Hm.
  apply metrics_at_inv in Hm as (d & ls & lc & Hl & Ht & Hs & Hc & Hne & Hls & Hlc).
  destruct m as [n xs ys]. simpl in *.
  eapply metrics_at_intro; eauto; rewrite Hagree; eauto.
Qed.

Lemma get_metrics_run (self : AnalyticsAgent.t) h tr o :
  h !! AnalyticsAgent.conversation_metrics self = Some o ->
  exists returned,
    AnalyticsAgent.get_metrics self (World h tr)
    = (Ok returned, World (<[returned := o]> h) tr)
    /\ h !! returned = None.
Proof.
  intros Hl. destruct (new_object_run o h tr) as (returned & Hrun & Hfresh).
  exists returned. split; [|exact Hfresh].
  unfold AnalyticsAgent.get_metrics, AnalyticsAgent.deref.
  unfold_monad. simpl. rewrite Hl. exact Hrun.
Qed.

Section copies.
Context `{Builtins}.

Lemma mutate_top_level_frame (returned : loc) (mu : mutation) w r w' :
  touches_nested mu = false ->
  mutate returned mu w = (r, w') ->
  forall l, l <> returned -> w_heap w' !! l = w_heap w !! l.
Proof.
  intros Htop Hrun l Hl. destruct mu as [key v | key | key x]; [| |done].
  - cbn [mutate] in Hrun.
    unfold AnalyticsAgent.setitem, AnalyticsAgent.deref in Hrun.
    unfold_monad.
    destruct (w_heap w !! returned) as [[d|xs]|]; injection Hrun as <- <-;
      try done.
    simpl. by rewrite lookup_insert_ne.
  - cbn [mutate] in Hrun.
    unfold delitem, AnalyticsAgent.deref in Hrun. unfold_monad.
    destruct (w_heap w !! returned) as [[d|xs]|]; try (by injection Hrun as <- <-).
    destruct (d !! key); injection Hrun as <- <-; [|done].
    simpl. by rewrite lookup_insert_ne.
Qed.

Lemma mutate_all_top_level_frame (returned : loc) (mus : list mutation) :
  top_level mus ->
  forall w r w',
    mutate_all returned mus w = (r, w') ->
    forall l, l <> returned -> w_heap w' !! l = w_heap w !! l.
Proof.
  induction 1 as [|mu mus Hmu _ IH]; intros w r w' Hrun l Hl.
  - by injection Hrun as <- <-.
  - cbn [mutate_all] in Hrun. unfold mbind, M_bind in Hrun.
    destruct (mutate returned mu w) as [[[]|e] w1] eqn:Hstep.
    + rewrite (IH _ _ _ Hrun l Hl).
      by eapply mutate_top_level_frame.
    + injection Hrun as <- <-. by eapply mutate_top_level_frame.
Qed.

(** C3, as the code has it. [get_metrics] returns a new mapping with the
    entries of the agent's own and changes nothing that existed, so the
    agent's metrics read as before. Assigning and deleting entries of the
    returned mapping, any number of times, leaves the agent's metrics as
    they were. *)
Theorem get_metrics_returns_shallow_copy (self : AnalyticsAgent.t) h tr
        (m : Metrics.t) :
  Metrics.of_agent h self = Some m ->
  exists returned h1,
    AnalyticsAgent.get_metrics self (World h tr) = (Ok returned, World h1 tr)
    /\ h !! returned = None
    /\ h1 !! returned = h !! AnalyticsAgent.conversation_metrics self
    /\ (forall l, l <> returned -> h1 !! l = h !! l)
    /\ Metrics.of_agent h1 self = Some m
    /\ forall mus r w2,
        top_level mus ->
        mutate_all returned mus (World h1 tr) = (r, w2) ->
        Metrics.of_agent (w_heap w2) self = Some m.
Proof.
  intros Hm. pose proof Hm as Hinv. unfold Metrics.of_agent in Hinv.
  apply metrics_at_inv in Hinv as (d & ls & lc & Hl & _).
  destruct (get_metrics_run self h tr _ Hl) as (returned & Hrun & Hfresh).
  exists returned, (<[returned := ODict d]> h).
  split; [exact Hrun|]. split; [exact Hfresh|].
  split; [by rewrite lookup_insert_eq|].
  assert (Hframe : forall l, l <> returned ->
                             <[returned := ODict d]> h !! l = h !! l).
  { intros l Hne. by rewrite lookup_insert_ne. }
  split; [exact Hframe|].
  assert (Hlive : forall l, is_Some (h !! l) -> l <> returned).
  { intros l [o Ho] ->. congruence. }
  split.
  - eapply metrics_at_agree; [|exact Hm]. intros l Hsome. auto.
  - intros mus r w2 Htop Hmut.
    eapply metrics_at_agree; [|exact Hm]. intros l Hsome.
    rewrite (mutate_all_top_level_frame returned mus Htop _ _ _ Hmut l) by auto.
    simpl. auto.
Qed.

End copies.

(** C3, as stated, fails. The first agent has tracked nothing. A caller
    takes its metrics and appends "negative" to the list it finds under
    "user_satisfaction"; the agent's own user_satisfaction now holds
    "negative": the lists are shared between the agent's mapping and the
    returned one. *)
Lemma get_metrics_nested_lists_are_shared :
  AnalyticsAgent.init empty_world = (Ok first_agent, first_world)
  /\ Metrics.of_agent (w_heap first_world) first_agent = Some no_metrics
  /\ AnalyticsAgent.get_metrics first_agent first_world
     = (Ok 4%positive, world_after_get_metrics)
  /\ @mutate_all plain 4%positive caller_appends world_after_get_metrics
     = (Ok tt, world_after_append)
  /\ Metrics.of_agent (w_heap world_after_append) first_agent
     = Some {| Metrics.total_messages := 0;
               Metrics.user_satisfaction := [VStr "negative"%py];
               Metrics.conversion_indicators := [] |}
  /\ ~ returned_metrics_isolated.
Proof.
  assert (Hbefore : Metrics.of_agent (w_heap first_world) first_agent
                    = Some no_metrics) by (vm_compute; reflexivity).
  assert (Hget : AnalyticsAgent.get_metrics first_agent
                   (World (w_heap first_world) (w_trace first_world))
                 = (Ok 4%positive,
                    World (w_heap world_after_get_metrics) (w_trace first_world)))
    by (vm_compute; reflexivity).
  assert (Hmut : @mutate_all plain 4%positive caller_appends
                   (World (w_heap world_after_get_metrics) (w_trace first_world))
                 = (Ok tt, world_after_append)) by (vm_compute; reflexivity).
  assert (Hafter : Metrics.of_agent (w_heap world_after_append) first_agent
                   = Some {| Metrics.total_messages := 0;
                             Metrics.user_satisfaction := [VStr "negative"%py];
                             Metrics.conversion_indicators := [] |})
    by (vm_compute; reflexivity).
  split; [vm_compute; reflexivity|].
  split; [exact Hbefore|].
  split; [vm_compute; reflexivity|].
  split; [vm_compute; reflexivity|].
  split; [exact Hafter|].
  intros Hiso.
  specialize (Hiso plain first_agent _ _ no_metrics _ _ _ _ _ Hbefore Hget Hmut).
  rewrite Hafter in Hiso. discriminate Hiso.
Qed.

(** ** MainBaekhoAgent *)

Section main.
Context `{Builtins} (env : Env).

Lemma maybe_append_ok (c : bool) (l : loc) (key : pystr) (x : val) w w' :
  (if c then
     held ← AnalyticsAgent.getitem l key; AnalyticsAgent.append held x
   else mret tt) w = (Ok tt, w') ->
  w_trace w' = w_trace w
  /\ forall l0 d0, w_heap w !! l0 = Some (ODict d0) ->
                   w_heap w' !! l0 = Some (ODict d0).
Proof.
  destruct c.
  - intros Hrun. apply bind_ok in Hrun as (held & w1 & Hget & Happ).
    apply getitem_ok in Hget as [-> _].
    apply append_ok in Happ as (lx & xs & -> & Hlx & ->). simpl.
    split; [done|]. intros l0 d0 Hl0.
    rewrite lookup_insert_ne; [done | congruence].
  - intros [= <-]. auto.
Qed.

(** A call that returns found an integer counter and left it one higher;
    it records nothing. *)
Lemma track_conversation_ok (self : AnalyticsAgent.t)
      (user_msg bot_response : pystr) w w' :
  AnalyticsAgent.track_conversation self user_msg bot_response w = (Ok tt, w') ->
  w_trace w' = w_trace w
  /\ exists n, Metrics.total_of (w_heap w) self = Some n
               /\ Metrics.total_of (w_heap w') self = Some (n + 1).
Proof.
  unfold AnalyticsAgent.track_conversation. intros Hrun.
  apply bind_ok in Hrun as (total & w1 & Hget & Hrun).
  apply getitem_ok in Hget as (-> & d & Hl & Ht).
  apply bind_ok in Hrun as (total' & w2 & Hadd & Hrun).
  apply iadd_1_ok in Hadd as (-> & n & -> & ->).
  apply bind_ok in Hrun as ([] & w3 & Hset & Hrun).
  apply setitem_ok in Hset as (d' & Hl' & ->).
  assert (d' = d) as -> by congruence.
  apply bind_ok in Hrun as ([] & w4 & Hsat & Hconv).
  apply maybe_append_ok in Hsat as [Htr4 Hd4].
  apply maybe_append_ok in Hconv as [Htr5 Hd5].
  split; [by rewrite Htr5, Htr4|].
  exists n. unfold Metrics.total_of. rewrite Hl. cbv beta iota.
  rewrite Ht. split; [done|].
  erewrite Hd5; [|apply Hd4; simpl; apply lookup_insert_eq].
  cbv beta iota. by rewrite lookup_insert_eq.
Qed.

Lemma pipeline_ok (self : MainBaekhoAgent.t) (message : pystr) h tr r w' :
  MainBaekhoAgent.pipeline env self message (World h tr) = (Ok r, w') ->
  exists h1 h2 knowledge_response sales_response tool delta,
    let prompt :=
      MainBaekhoAgent.context_prompt message knowledge_response sales_response in
    let tr1 := tr ++ [EvTrackConversation message []] in
    let tr2 := tr1 ++ tool :: delta in
    let tr3 := (tr2 ++ [EvLlmResponse prompt])
               ++ [EvTrackConversation message r] in
    AnalyticsAgent.track_conversation (MainBaekhoAgent.analytics_agent self)
      message [] (World h tr1) = (Ok tt, World h1 tr1)
    /\ KnowledgeAgent.handle_message_fallback env message (World h1 tr1)
       = (Ok knowledge_response, World h1 tr2)
    /\ is_tool_invocation tool = true
    /\ forallb is_collaborator_call delta = true
    /\ SalesAgent.handle_message_fallback message (World h1 tr2)
       = (Ok sales_response, World h1 tr2)
    /\ llm_response_async env prompt = Ok r
    /\ AnalyticsAgent.track_conversation (MainBaekhoAgent.analytics_agent self)
         message r (World h1 tr3) = (Ok tt, World h2 tr3)
    /\ w' = World h2 tr3.
Proof.
  unfold MainBaekhoAgent.pipeline. intros Hrun.
  apply bind_ok in Hrun as ([] & w1 & Htrack1 & Hrun).
  unfold call at 1, log in Htrack1.
  apply bind_ok in Htrack1 as ([] & w0 & [= <-] & Htrack1).
  cbn [w_heap w_trace] in Htrack1.
  destruct w1 as [h1 tr1].
  pose proof (track_conversation_ok _ _ _ _ _ Htrack1) as [Htr1 _].
  cbn [w_trace] in Htr1. subst tr1.
  destruct (knowledge_effects env message
              (World h1 (tr ++ [EvTrackConversation message []])))
    as (k & tool & delta & Hk & Htool & Hdelta).
  unfold extends in Hk. cbn [w_heap w_trace] in Hk.
  erewrite bind_run in Hrun by exact Hk.
  destruct (sales_suggestion_text message) as (s & Hs).
  erewrite bind_run in Hrun by apply Hs.
  cbv zeta in Hrun.
  apply bind_ok in Hrun as (final & w3 & Hllm & Hrun).
  unfold call at 1, log, lift in Hllm.
  apply bind_ok in Hllm as ([] & w2 & [= <-] & Hllm).
  cbv beta in Hllm. cbn [w_heap w_trace] in Hllm.
  injection Hllm as Hllm <-.
  apply bind_ok in Hrun as ([] & w4 & Htrack2 & [= -> <-]).
  unfold call at 1, log in Htrack2.
  apply bind_ok in Htrack2 as ([] & w5 & [= <-] & Htrack2).
  cbn [w_heap w_trace] in Htrack2.
  destruct w4 as [h2 tr4].
  pose proof (track_conversation_ok _ _ _ _ _ Htrack2) as [Htr2 _].
  cbn [w_trace] in Htr2. subst tr4.
  exists h1, h2, k, s, tool, delta. cbv zeta.
  split; [exact Htrack1|]. split; [exact Hk|]. split; [exact Htool|].
  split; [exact Hdelta|]. split; [apply Hs|].
  split; [exact Hllm|]. split; [exact Htrack2|]. reflexivity.
Qed.

(** C5. A message handled without an exception makes exactly two calls of
    [track_conversation]: the first call recorded, with the empty text as
    response and before the knowledge tool is invoked, and the last call
    recorded, with the reply of the language model as response.
    total_messages ends 2 higher than it started. *)
Theorem main_tracks_twice (self : MainBaekhoAgent.t) (message : pystr)
        (w : world) (r : pystr) (w' : world) :
  MainBaekhoAgent.pipeline env self message w = (Ok r, w') ->
  MainBaekhoAgent.handle_user_message env self message w = (Ok r, w')
  /\ List.filter is_track_conversation (new_events w w')
     = [EvTrackConversation message []; EvTrackConversation message r]
  /\ (exists tool delta prompt,
        new_events w w'
        = [EvTrackConversation message []; tool] ++ delta
          ++ [EvLlmResponse prompt; EvTrackConversation message r]
        /\ is_tool_invocation tool = true
        /\ forallb is_collaborator_call delta = true
        /\ llm_response_async env prompt = Ok r)
  /\ exists n,
      Metrics.total_of (w_heap w) (MainBaekhoAgent.analytics_agent self) = Some n
      /\ Metrics.total_of (w_heap w') (MainBaekhoAgent.analytics_agent self)
         = Some (n + 2).
Proof.
  intros Hrun. split.
  { unfold MainBaekhoAgent.handle_user_message. by apply try_except_ok. }
  destruct w as [h tr].
  apply pipeline_ok in Hrun
    as (h1 & h2 & k & s & tool & delta & Ht1 & _ & Htool & Hdelta & _
        & Hllm & Ht2 & ->).
  cbv zeta in *.
  set (prompt := MainBaekhoAgent.context_prompt message k s) in *.
  assert (Hnew : new_events (World h tr)
                   (World h2 (((tr ++ [EvTrackConversation message []])
                               ++ tool :: delta) ++ [EvLlmResponse prompt]
                              ++ [EvTrackConversation message r]))
                 = [EvTrackConversation message []; tool] ++ delta
                   ++ [EvLlmResponse prompt; EvTrackConversation message r]).
  { rewrite <- (new_events_app (World h tr) h2). do 2 f_equal.
    cbn [w_trace]. rewrite <- !app_assoc. reflexivity. }
  rewrite <- (app_assoc _ [EvLlmResponse prompt]) in *.
  split; [ | split ].
  - rewrite Hnew. destruct (collaborator_calls_no_tool delta Hdelta) as [_ Hd].
    rewrite !List.filter_app, Hd.
    destruct tool; try discriminate Htool; reflexivity.
  - by exists tool, delta, prompt.
  - apply track_conversation_ok in Ht1 as (_ & n & Hn & Hn1).
    apply track_conversation_ok in Ht2 as (_ & n' & Hn' & Hn2).
    cbn [w_heap] in *. exists n. split; [exact Hn|].
    rewrite Hn2. f_equal. rewrite Hn1 in Hn'. injection Hn' as <-. lia.
Qed.

End main.

(** ** The properties at work *)

Lemma track_conversation_counts_witness :
  Metrics.of_agent (w_heap first_world) first_agent = Some no_metrics
  /\ exists h' m',
      @AnalyticsAgent.track_conversation plain first_agent a_question []
        (World (w_heap first_world) [])
      = (Ok tt, World h' [])
      /\ Metrics.of_agent h' first_agent = Some m'
      /\ Metrics.total_messages m' = 0 + 1.
Proof.
  split; [vm_compute; reflexivity|].
  destruct (@track_conversation_counts plain first_agent a_question []
              (w_heap first_world) [] no_metrics)
    as (h' & m' & Hrun & Hm' & Htotal & _).
  - vm_compute; reflexivity.
  - exists h', m'. split; [exact Hrun|]. split; [exact Hm'|]. exact Htotal.
Defined.

Lemma get_metrics_returns_shallow_copy_witness :
  Metrics.of_agent (w_heap first_world) first_agent = Some no_metrics
  /\ exists returned h1,
      AnalyticsAgent.get_metrics first_agent (World (w_heap first_world) [])
      = (Ok returned, World h1 [])
      /\ Metrics.of_agent h1 first_agent = Some no_metrics
      /\ forall r w2,
          @mutate_all plain returned
            [SetItem "total_messages"%py (VInt 99); DelItem "user_satisfaction"%py]
            (World h1 []) = (r, w2) ->
          Metrics.of_agent (w_heap w2) first_agent = Some no_metrics.
Proof.
  split; [vm_compute; reflexivity|].
  destruct (@get_metrics_returns_shallow_copy plain first_agent
              (w_heap first_world) [] no_metrics)
    as (returned & h1 & Hrun & _ & _ & _ & Hsame & Hmut).
  - vm_compute; reflexivity.
  - exists returned, h1. split; [exact Hrun|]. split; [exact Hsame|].
    intros r w2. apply Hmut. repeat constructor.
Defined.

Lemma main_tracks_twice_witness :
  @MainBaekhoAgent.pipeline plain quiet_env first_main_agent a_question first_world
  = (Ok "Hola, soy BaekhoBot."%py, world_after_question)
  /\ List.filter is_track_conversation (new_events first_world world_after_question)
     = [EvTrackConversation a_question [];
        EvTrackConversation a_question "Hola, soy BaekhoBot."%py]
  /\ exists n,
      Metrics.total_of (w_heap first_world) first_agent = Some n
      /\ Metrics.total_of (w_heap world_after_question) first_agent = Some (n + 2).
Proof.
  split; [vm_compute; reflexivity|].
  destruct (@main_tracks_twice plain quiet_env first_main_agent a_question
              first_world "Hola, soy BaekhoBot."%py world_after_question)
    as (_ & Hcalls & _ & Htotal).
  - vm_compute; reflexivity.
  - split; [exact Hcalls | exact Htotal].
Defined.

(** The literals are the code points of the source text. *)
Example literal_code_points :
  "¿Qué tal, BaekhoBot 🥋?"%py
  = [191; 81; 117; 233; 32; 116; 97; 108; 44; 32; 66; 97; 101; 107; 104; 111;
     66; 111; 116; 32; 129355; 63]%N.
Proof. reflexivity. Qed.

(** "¿Tienen descuento en uniformes?" goes to the promotion search; with no
    promotion stored the answer is the no-promotions message. *)
Example discount_question_goes_to_promotions :
  @KnowledgeAgent.handle_message_fallback plain quiet_env
    "¿Tienen descuento en uniformes?"%py empty_world
  = (Ok "No hay promociones activas en este momento."%py,
     World ∅ [EvPromotionSearchTool;
              EvSearchSimilar (repeat 0%float 384) 10
                [("type"%py, PStr "promocion"%py); ("activa"%py, PBool true)]]).
Proof. vm_compute. reflexivity. Qed.

(** "Busco un cinturon negro" is answered with the matching uniforms. *)
Example belt_question_suggests_uniforms :
  @SalesAgent.handle_message_fallback plain "Busco un cinturon negro"%py empty_world
  = (Ok "Sugerencias adicionales: ¿Te interesaría ver nuestros uniformes a juego?"%py,
     empty_world).
Proof. vm_compute. reflexivity. Qed.

(** A message with all three keywords gets the suggestion for uniforms only. *)
Example first_keyword_wins :
  @SalesAgent.handle_message_fallback plain
    "Proteccion, cinturon y uniforme"%py empty_world
  = (Ok "Sugerencias adicionales: ¿Has considerado también un cinturón o protecciones?"%py,
     empty_world).
Proof. vm_compute. reflexivity. Qed.

(** A product search over an empty store answers with the no-results text. *)
Example empty_store_product_search :
  @ProductSearchTool.handle plain quiet_env (ProductSearchTool.new "dobok"%py)
    empty_world
  = (Ok "No se encontraron productos que coincidan con tu búsqueda."%py,
     World ∅ [EvEncodeQuery "dobok"%py; EvSearchSimilar [0%float] 5 []]).
Proof. vm_compute. reflexivity. Qed.

(** The relational layer raising inside [UserHistoryTool.handle] *)
Example history_failure_is_reported :
  @UserHistoryTool.handle plain search_down_env (UserHistoryTool.new 7) empty_world
  = (Ok "Error obteniendo historial: connection refused"%py,
     World ∅ [EvGetChatsByUsuario 7]).
Proof. vm_compute. reflexivity. Qed.

(** The language model raising: the first call of [track_conversation] has
    counted, the second was never made, and the answer is the apology. *)
Example model_failure_gets_apology :
  exists w',
    @MainBaekhoAgent.handle_user_message plain search_down_env first_main_agent
      a_question first_world
    = (Ok MainBaekhoAgent.apology, w')
    /\ Metrics.total_of (w_heap w') first_agent = Some 1
    /\ List.filter is_track_conversation (new_events first_world w')
       = [EvTrackConversation a_question []].
Proof.
  eexists. split; [vm_compute; reflexivity|]. split; vm_compute; reflexivity.
Qed.

(** * Further properties *)

(** ** What the tools send and what they print *)

Lemma for_each_length {A B} (f : A -> outcome B) (xs : list A) (ys : list B) :
  for_each f xs = Ok ys -> length ys = length xs.
Proof.
  revert ys. induction xs as [|x xs IH]; intros ys; simpl.
  - by intros [= <-].
  - destruct (f x) as [y|e]; [|discriminate]. simpl.
    destruct (for_each f xs) as [ys'|e]; [|discriminate]. simpl.
    intros [= <-]. simpl. f_equal. by apply IH.
Qed.

Lemma for_each_Forall2 {A B} (f : A -> outcome B) (R : A -> B -> Prop)
      (xs : list A) :
  Forall (fun x => exists y, f x = Ok y /\ R x y) xs ->
  exists ys, for_each f xs = Ok ys /\ Forall2 R xs ys.
Proof.
  induction 1 as [|x xs (y & Hy & HR) _ (ys & Hys & HRs)].
  - exists []. by split; [|constructor].
  - exists (y :: ys). simpl. rewrite Hy. simpl. rewrite Hys. simpl.
    split; [done|]. by constructor.
Qed.

Lemma for_each_first_raise {A B} (f : A -> outcome B) (good : list A)
      (bad : A) (rest : list A) (e : exn) :
  Forall (fun x => exists y, f x = Ok y) good ->
  f bad = Raise e ->
  for_each f (good ++ bad :: rest) = Raise e.
Proof.
  intros Hgood Hbad. induction Hgood as [|x good [y Hy] _ IH]; simpl.
  - by rewrite Hbad.
  - by rewrite Hy, IH.
Qed.

Lemma product_format_result_ok (hit : pydict) :
  has_dict_payload hit ->
  exists v, ProductSearchTool.format_result hit = Ok v /\ product_entry hit v.
Proof.
  intros [payload Hp]. eexists. split.
  - unfold ProductSearchTool.format_result. fold (payload_of hit).
    rewrite Hp. reflexivity.
  - exists payload. split; [exact Hp | reflexivity].
Qed.

Lemma promotion_format_result_ok (hit : pydict) :
  has_dict_payload hit ->
  exists v, PromotionSearchTool.format_result hit = Ok v /\ promotion_entry hit v.
Proof.
  intros [payload Hp]. eexists. split.
  - unfold PromotionSearchTool.format_result. fold (payload_of hit).
    rewrite Hp. reflexivity.
  - exists payload. split; [exact Hp | reflexivity].
Qed.

Lemma product_format_result_raise (hit : pydict) :
  is_dict (payload_of hit) = false ->
  ProductSearchTool.format_result hit
  = Raise (AttributeError (type_name (payload_of hit)) "get"%py).
Proof.
  unfold ProductSearchTool.format_result. fold (payload_of hit).
  by destruct (payload_of hit).
Qed.

Section tool_answers.
Context `{Builtins} (env : Env).

(** X1. When its collaborators answer, the product search encodes its query
    once and then searches once, with the embedding it got, its
    [max_results] as limit, and a category filter only when a non-empty
    category was given. An empty result is answered with the no-results
    message. The metrics are not touched. *)
Theorem product_search_asks_once (self : ProductSearchTool.t) (w : world)
        (query_embedding : list float) (results : list pydict) :
  product_search_returns env self query_embedding results ->
  exists s w' filters,
    ProductSearchTool.handle env self w = (Ok s, w')
    /\ w_heap w' = w_heap w
    /\ new_events w w'
       = [EvEncodeQuery (ProductSearchTool.query self);
          EvSearchSimilar query_embedding (ProductSearchTool.max_results self)
                          filters]
    /\ (ProductSearchTool.category self = None -> filters = [])
    /\ (ProductSearchTool.category self = Some [] -> filters = [])
    /\ (forall c, ProductSearchTool.category self = Some c -> c <> [] ->
                  filters = [("categoria"%py, PStr c)])
    /\ (results = [] ->
        s = "No se encontraron productos que coincidan con tu búsqueda."%py).
Proof.
  intros (Hq & Hi & He & Henc & Hs).
  rewrite product_handle_run. cbv zeta. rewrite Hq, Hi, He, Henc, Hs.
  assert (Hfilters :
            (ProductSearchTool.category self = None ->
             ProductSearchTool.filters_of self = [])
            /\ (ProductSearchTool.category self = Some [] ->
                ProductSearchTool.filters_of self = [])
            /\ (forall c, ProductSearchTool.category self = Some c -> c <> [] ->
                          ProductSearchTool.filters_of self
                          = [("categoria"%py, PStr c)])).
  { unfold ProductSearchTool.filters_of.
    split; [by intros ->|]. split; [by intros ->|].
    intros c -> Hc. by destruct c. }
  destruct results as [|first more].
  - eexists _, _, (ProductSearchTool.filters_of self).
    split; [reflexivity|]. split; [reflexivity|].
    rewrite new_events_extends. split; [reflexivity|].
    destruct Hfilters as (F1 & F2 & F3). by repeat split.
  - destruct (for_each _ _); eexists _, _, (ProductSearchTool.filters_of self);
      (split; [reflexivity|]); (split; [reflexivity|]);
      rewrite new_events_extends; (split; [reflexivity|]);
      destruct Hfilters as (F1 & F2 & F3); repeat split; try done.
Qed.

(** X2. When the search finds hits and every hit has a dict as payload, or
    no payload at all, the product search prints one entry per hit, in the
    order of the hits: the six fields of the payload, each with its default
    when the payload lacks it, then the score of the hit (0 when the hit has
    none). What else the payload holds is dropped. *)
Theorem product_search_formats_every_hit (self : ProductSearchTool.t)
        (w : world) (query_embedding : list float) (results : list pydict) :
  product_search_returns env self query_embedding results ->
  results <> [] ->
  Forall has_dict_payload results ->
  exists formatted w',
    ProductSearchTool.handle env self w = (Ok (str_ (PList formatted)), w')
    /\ Forall2 product_entry results formatted.
Proof.
  intros (Hq & Hi & He & Henc & Hs) Hne Hall.
  destruct (for_each_Forall2 ProductSearchTool.format_result product_entry results)
    as (formatted & Hfmt & Hentries).
  { eapply Forall_impl; [exact Hall|]. apply product_format_result_ok. }
  exists formatted. rewrite product_handle_run. cbv zeta.
  rewrite Hq, Hi, He, Henc, Hs.
  destruct results as [|first more]; [done|].
  rewrite Hfmt. by eexists.
Qed.

(** X3. One hit whose payload is not a dict (a payload of [None], say)
    costs the whole answer: the product search prints none of the hits,
    not even the well-formed ones before it, and answers with its error
    prefix and the text of the [AttributeError] for the first such hit. *)
Theorem product_search_one_bad_payload (self : ProductSearchTool.t) (w : world)
        (query_embedding : list float) (good : list pydict) (bad : pydict)
        (rest : list pydict) :
  product_search_returns env self query_embedding (good ++ bad :: rest) ->
  Forall has_dict_payload good ->
  is_dict (payload_of bad) = false ->
  exists w',
    ProductSearchTool.handle env self w
    = (Ok ("Error ejecutando búsqueda: '"%py ++ type_name (payload_of bad)
           ++ "' object has no attribute 'get'"%py), w').
Proof.
  intros (Hq & Hi & He & Henc & Hs) Hgood Hbad.
  rewrite product_handle_run. cbv zeta. rewrite Hq, Hi, He, Henc, Hs.
  assert (Hraise : for_each ProductSearchTool.format_result (good ++ bad :: rest)
                   = Raise (AttributeError (type_name (payload_of bad)) "get"%py)).
  { apply for_each_first_raise; [|by apply product_format_result_raise].
    eapply Forall_impl; [exact Hgood|]. intros hit Hhit.
    destruct (product_format_result_ok hit Hhit) as (v & Hv & _). by exists v. }
  destruct (good ++ bad :: rest) as [|first more] eqn:Hres.
  { by destruct good. }
  rewrite Hraise. eexists. reflexivity.
Qed.

(** X4. When the search finds promotions and every hit has a dict as
    payload, or no payload at all, the promotion search prints one entry
    per hit, in order, with four fields; the field "productos" is read from
    "productos_nombres" of the payload, and a missing discount prints as
    0. *)
Theorem promotion_search_formats_every_hit (w : world) (results : list pydict) :
  promotion_search_returns env results ->
  results <> [] ->
  Forall has_dict_payload results ->
  exists promotions w',
    PromotionSearchTool.handle env w = (Ok (str_ (PList promotions)), w')
    /\ Forall2 promotion_entry results promotions.
Proof.
  intros (Hq & Hs) Hne Hall.
  destruct (for_each_Forall2 PromotionSearchTool.format_result promotion_entry
              results) as (promotions & Hfmt & Hentries).
  { eapply Forall_impl; [exact Hall|]. apply promotion_format_result_ok. }
  exists promotions. rewrite promotion_handle_run. cbv zeta. rewrite Hq, Hs.
  destruct results as [|first more]; [done|].
  rewrite Hfmt. by eexists.
Qed.

(** X5. A user without chats is answered "Usuario sin historial previo";
    the message controller is not constructed and no messages are asked
    for, so a failing message controller does not matter. *)
Theorem history_of_new_user (self : UserHistoryTool.t) (w : world) :
  history_returns env self [] ->
  exists w',
    UserHistoryTool.handle env self w = (Ok "Usuario sin historial previo"%py, w')
    /\ w_heap w' = w_heap w
    /\ new_events w w' = [EvGetChatsByUsuario (UserHistoryTool.user_id self)].
Proof.
  intros (Hi & Hc & Hchats).
  rewrite history_handle_run. cbv zeta. rewrite Hi, Hc, Hchats.
  eexists. split; [reflexivity|]. split; [reflexivity|].
  apply new_events_extends.
Qed.

(** X6. For a user with chats the history tool reads the first chat of the
    list and no other: it asks for [limit] messages of that chat from
    offset 0, and prints one entry per message, in order, with the body cut
    to its first 200 characters and the date absent when the message has
    none. *)
Theorem history_reads_first_chat (self : UserHistoryTool.t) (w : world)
        (latest_chat : Chat) (older : list Chat) (recent_messages : list Mensaje) :
  history_returns env self (latest_chat :: older) ->
  MensajeController env = Ok tt ->
  get_mensajes_by_chat env (chat_id latest_chat) (UserHistoryTool.limit self) 0
  = Ok recent_messages ->
  exists history w',
    UserHistoryTool.handle env self w = (Ok (str_ (PList history)), w')
    /\ new_events w w'
       = [EvGetChatsByUsuario (UserHistoryTool.user_id self);
          EvGetMensajesByChat (chat_id latest_chat) (UserHistoryTool.limit self) 0]
    /\ Forall2 history_entry recent_messages history.
Proof.
  intros (Hi & Hc & Hchats) Hm Hmsgs.
  rewrite history_handle_run. cbv zeta. rewrite Hi, Hc, Hchats, Hm, Hmsgs.
  eexists _, _. split; [reflexivity|].
  rewrite new_events_extends. split; [reflexivity|].
  clear. induction recent_messages as [|msg msgs IH]; [constructor|].
  simpl. constructor; [|exact IH].
  exists (slice_to 200 (contenido msg)).
  split; [reflexivity|]. split; [reflexivity|].
  split; [apply slice_to_length|]. intros Hshort. by apply take_ge.
Qed.

End tool_answers.

Lemma product_search_asks_once_witness :
  product_search_returns (stocked_env []) (ProductSearchTool.new "dobok"%py)
                         [0%float] []
  /\ exists s w' filters,
      @ProductSearchTool.handle plain (stocked_env [])
        (ProductSearchTool.new "dobok"%py) empty_world = (Ok s, w')
      /\ new_events empty_world w'
         = [EvEncodeQuery "dobok"%py; EvSearchSimilar [0%float] 5 filters].
Proof.
  split; [repeat split; reflexivity|].
  destruct (@product_search_asks_once plain (stocked_env [])
              (ProductSearchTool.new "dobok"%py) empty_world [0%float] [])
    as (s & w' & filters & Hrun & _ & Hevents & _).
  - repeat split; reflexivity.
  - exists s, w', filters. split; [exact Hrun | exact Hevents].
Defined.

Lemma product_search_formats_every_hit_witness :
  product_search_returns (stocked_env [dobok_hit; bare_hit])
                         (ProductSearchTool.new "dobok"%py) [0%float]
                         [dobok_hit; bare_hit]
  /\ Forall has_dict_payload [dobok_hit; bare_hit]
  /\ exists formatted w',
      @ProductSearchTool.handle plain (stocked_env [dobok_hit; bare_hit])
        (ProductSearchTool.new "dobok"%py) empty_world
      = (Ok (@str_ plain (PList formatted)), w')
      /\ Forall2 product_entry [dobok_hit; bare_hit] formatted.
Proof.
  assert (Hpayloads : Forall has_dict_payload [dobok_hit; bare_hit]).
  { repeat constructor; eexists; reflexivity. }
  split; [repeat split; reflexivity|]. split; [exact Hpayloads|].
  apply (@product_search_formats_every_hit plain
           (stocked_env [dobok_hit; bare_hit])
           (ProductSearchTool.new "dobok"%py) empty_world [0%float]).
  - repeat split; reflexivity.
  - discriminate.
  - exact Hpayloads.
Defined.

Lemma product_search_one_bad_payload_witness :
  product_search_returns (stocked_env [dobok_hit; null_payload_hit; bare_hit])
                         (ProductSearchTool.new "dobok"%py) [0%float]
                         ([dobok_hit] ++ null_payload_hit :: [bare_hit])
  /\ exists w',
      @ProductSearchTool.handle plain
        (stocked_env [dobok_hit; null_payload_hit; bare_hit])
        (ProductSearchTool.new "dobok"%py) empty_world
      = (Ok "Error ejecutando búsqueda: 'NoneType' object has no attribute 'get'"%py,
         w').
Proof.
  split; [repeat split; reflexivity|].
  apply (@product_search_one_bad_payload plain
           (stocked_env [dobok_hit; null_payload_hit; bare_hit])
           (ProductSearchTool.new "dobok"%py) empty_world [0%float]
           [dobok_hit] null_payload_hit [bare_hit]).
  - repeat split; reflexivity.
  - repeat constructor. eexists; reflexivity.
  - reflexivity.
Defined.

Lemma promotion_search_formats_every_hit_witness :
  promotion_search_returns (stocked_env [dobok_hit]) [dobok_hit]
  /\ exists promotions w',
      @PromotionSearchTool.handle plain (stocked_env [dobok_hit]) empty_world
      = (Ok (@str_ plain (PList promotions)), w')
      /\ Forall2 promotion_entry [dobok_hit] promotions.
Proof.
  split; [repeat split; reflexivity|].
  apply (@promotion_search_formats_every_hit plain (stocked_env [dobok_hit])
           empty_world).
  - repeat split; reflexivity.
  - discriminate.
  - repeat constructor. eexists; reflexivity.
Defined.

Lemma history_of_new_user_witness :
  history_returns quiet_env (UserHistoryTool.new 7) []
  /\ exists w',
      @UserHistoryTool.handle plain quiet_env (UserHistoryTool.new 7) empty_world
      = (Ok "Usuario sin historial previo"%py, w')
      /\ w_heap w' = w_heap empty_world
      /\ new_events empty_world w' = [EvGetChatsByUsuario 7].
Proof.
  split; [repeat split; reflexivity|].
  apply (@history_of_new_user plain quiet_env (UserHistoryTool.new 7) empty_world).
  repeat split; reflexivity.
Defined.

Lemma history_reads_first_chat_witness :
  history_returns (stocked_env []) (UserHistoryTool.new 7)
                  [ {| chat_id := 42 |}; {| chat_id := 41 |} ]
  /\ exists history w',
      @UserHistoryTool.handle plain (stocked_env []) (UserHistoryTool.new 7)
        empty_world
      = (Ok (@str_ plain (PList history)), w')
      /\ new_events empty_world w'
         = [EvGetChatsByUsuario 7; EvGetMensajesByChat 42 10 0]
      /\ Forall2 history_entry
           [ {| rol := PStr "user"%py; contenido := "Hola"%py;
                fechaCreacion := None |} ]
           history.
Proof.
  split; [repeat split; reflexivity|].
  apply (@history_reads_first_chat plain (stocked_env []) (UserHistoryTool.new 7)
           empty_world {| chat_id := 42 |} [ {| chat_id := 41 |} ]).
  - repeat split; reflexivity.
  - reflexivity.
  - reflexivity.
Defined.

(** ** The objects behind the metrics *)

Lemma metrics_lists_inv (h : heap) (l : loc) (m : Metrics.t) :
  Metrics.at_ h l = Some m ->
  exists d ls lc,
    metrics_lists h l = Some (ls, lc)
    /\ h !! l = Some (ODict d)
    /\ d !! "total_messages"%py = Some (VInt (Metrics.total_messages m))
    /\ d !! "user_satisfaction"%py = Some (VRef ls)
    /\ d !! "conversion_indicators"%py = Some (VRef lc)
    /\ ls <> lc /\ l <> ls /\ l <> lc
    /\ h !! ls = Some (OList (Metrics.user_satisfaction m))
    /\ h !! lc = Some (OList (Metrics.conversion_indicators m)).
Proof.
  intros Hm.
  apply metrics_at_inv in Hm as (d & ls & lc & Hl & Ht & Hs & Hc & Hne & Hls & Hlc).
  exists d, ls, lc. unfold metrics_lists. rewrite Hl, Hs, Hc.
  repeat split; try done; congruence.
Qed.

(** What one call changes: the three objects of the agent and no other;
    the dict keeps referring to the same two lists. *)
Lemma track_conversation_footprint `{Builtins} (self : AnalyticsAgent.t)
      (user_msg bot_response : pystr) h tr (m : Metrics.t) :
  Metrics.of_agent h self = Some m ->
  exists h',
    AnalyticsAgent.track_conversation self user_msg bot_response (World h tr)
    = (Ok tt, World h' tr)
    /\ Metrics.of_agent h' self = Some (tracked m user_msg)
    /\ metrics_lists h' (AnalyticsAgent.conversation_metrics self)
       = metrics_lists h (AnalyticsAgent.conversation_metrics self)
    /\ forall l, l ∉ footprint h self -> h' !! l = h !! l.
Proof.
  intros Hm. pose proof Hm as Hinv. unfold Metrics.of_agent in Hinv.
  apply metrics_lists_inv in Hinv
    as (d & ls & lc & Hlists & Hl & Ht & Hs & Hc & Hne & Hlls & Hllc & Hls & Hlc).
  destruct metrics_keys_differ as (Kts & Ktc & Ksc).
  set (l := AnalyticsAgent.conversation_metrics self) in *.
  unfold AnalyticsAgent.track_conversation. fold l.
  erewrite bind_run by (by eapply getitem_run).
  erewrite bind_run by reflexivity.
  erewrite bind_run by (by eapply setitem_run).
  set (d1 := <[_ := _]> d).
  set (h1 := <[l := ODict d1]> h).
  assert (Hl1 : h1 !! l = Some (ODict d1)) by apply lookup_insert_eq.
  assert (Hs1 : d1 !! "user_satisfaction"%py = Some (VRef ls)).
  { unfold d1. by rewrite lookup_insert_ne. }
  assert (Hc1 : d1 !! "conversion_indicators"%py = Some (VRef lc)).
  { unfold d1. by rewrite lookup_insert_ne. }
  assert (Ht1 : d1 !! "total_messages"%py
                = Some (VInt (Metrics.total_messages m + 1))).
  { unfold d1. apply lookup_insert_eq. }
  assert (Hls1 : h1 !! ls = Some (OList (Metrics.user_satisfaction m))).
  { unfold h1. by rewrite lookup_insert_ne. }
  assert (Hlc1 : h1 !! lc = Some (OList (Metrics.conversion_indicators m))).
  { unfold h1. by rewrite lookup_insert_ne. }
  erewrite bind_run by (by eapply maybe_append_run).
  set (c1 := any_in AnalyticsAgent.positive_indicators (lower user_msg)).
  set (c2 := any_in AnalyticsAgent.conversion_indicators (lower user_msg)).
  set (h2 := if c1 then _ else h1).
  assert (Hl2 : h2 !! l = Some (ODict d1)).
  { unfold h2. destruct c1; [by rewrite lookup_insert_ne | done]. }
  assert (Hlc2 : h2 !! lc = Some (OList (Metrics.conversion_indicators m))).
  { unfold h2. destruct c1; [by rewrite lookup_insert_ne | done]. }
  erewrite maybe_append_run by done.
  set (h3 := if c2 then _ else h2).
  assert (Hl3 : h3 !! l = Some (ODict d1)).
  { unfold h3. destruct c2; [by rewrite lookup_insert_ne | done]. }
  exists h3. split; [reflexivity|]. split; [|split].
  - unfold Metrics.of_agent, tracked. fold l c1 c2.
    eapply metrics_at_intro with (d := d1) (ls := ls) (lc := lc); try done.
    + unfold h3, h2.
      destruct c2, c1; rewrite ?lookup_insert_ne by done;
        rewrite ?lookup_insert_eq, ?app_nil_r; done.
    + unfold h3. destruct c2; [apply lookup_insert_eq | by rewrite app_nil_r].
  - unfold metrics_lists. by rewrite Hl3, Hl, Hs1, Hc1, Hs, Hc.
  - intros l0 Hl0. unfold footprint in Hl0. fold l in Hl0. rewrite Hlists in Hl0.
    assert (l0 <> l /\ l0 <> ls /\ l0 <> lc) as (N1 & N2 & N3).
    { rewrite !not_elem_of_cons in Hl0. tauto. }
    unfold h3, h2, h1.
    destruct c2, c1; by rewrite ?lookup_insert_ne by done.
Qed.

(** Metrics read the same from two heaps that agree on the footprint. *)
Lemma metrics_agree_on_footprint (h h' : heap) (self : AnalyticsAgent.t)
      (m : Metrics.t) :
  Metrics.of_agent h self = Some m ->
  (forall l, l ∈ footprint h self -> h' !! l = h !! l) ->
  Metrics.of_agent h' self = Some m /\ footprint h' self = footprint h self.
Proof.
  intros Hm Hagree. pose proof Hm as Hinv. unfold Metrics.of_agent in Hinv.
  apply metrics_lists_inv in Hinv
    as (d & ls & lc & Hlists & Hl & Ht & Hs & Hc & Hne & _ & _ & Hls & Hlc).
  unfold footprint in *. rewrite Hlists in *.
  assert (Hl' : h' !! AnalyticsAgent.conversation_metrics self = Some (ODict d)).
  { rewrite Hagree; [done | set_solver]. }
  split.
  - destruct m as [n xs ys]. simpl in *. unfold Metrics.of_agent.
    eapply metrics_at_intro; eauto; rewrite Hagree; eauto; set_solver.
  - unfold metrics_lists. by rewrite Hl', Hs, Hc.
Qed.

(** The three objects of a new agent are new. *)
Lemma analytics_init_fresh h tr :
  exists self h',
    AnalyticsAgent.init (World h tr) = (Ok self, World h' tr)
    /\ Metrics.of_agent h' self = Some no_metrics
    /\ (forall l, is_Some (h !! l) -> h' !! l = h !! l)
    /\ (forall l, l ∈ footprint h' self -> h !! l = None).
Proof.
  unfold AnalyticsAgent.init.
  destruct (new_object_run (OList []) h tr) as (l1 & R1 & F1).
  erewrite bind_run by exact R1.
  destruct (new_object_run (OList []) (<[l1 := OList []]> h) tr) as (l2 & R2 & F2).
  erewrite bind_run by exact R2.
  match goal with
  | |- context [AnalyticsAgent.new_object ?o] =>
    destruct (new_object_run o (<[l2 := OList []]> (<[l1 := OList []]> h)) tr)
      as (l3 & R3 & F3)
  end.
  erewrite bind_run by exact R3.
  assert (l2 <> l1).
  { intros ->. by rewrite lookup_insert_eq in F2. }
  assert (l3 <> l2).
  { intros ->. by rewrite lookup_insert_eq in F3. }
  assert (l3 <> l1).
  { intros ->. rewrite lookup_insert_ne, lookup_insert_eq in F3; done. }
  rewrite lookup_insert_ne in F2 by done.
  rewrite !lookup_insert_ne in F3 by done.
  destruct metrics_keys_differ as (Kts & Ktc & Ksc).
  eexists _, _. split; [reflexivity|].
  split; [|split].
  - unfold Metrics.of_agent. cbn [AnalyticsAgent.conversation_metrics].
    eapply metrics_at_intro with (ls := l1) (lc := l2).
    + apply lookup_insert_eq.
    + apply lookup_insert_eq.
    + rewrite lookup_insert_ne by done. apply lookup_insert_eq.
    + rewrite !lookup_insert_ne by done. apply lookup_insert_eq.
    + done.
    + rewrite !lookup_insert_ne by done. apply lookup_insert_eq.
    + rewrite lookup_insert_ne by done. apply lookup_insert_eq.
  - intros l [o Hl]. rewrite !lookup_insert_ne; [done | congruence..].
  - intros l. unfold footprint, metrics_lists.
    cbn [AnalyticsAgent.conversation_metrics].
    rewrite lookup_insert_eq.
    rewrite (lookup_insert_ne _ "total_messages"%py) by done.
    rewrite lookup_insert_eq.
    rewrite !(lookup_insert_ne _ _ "conversion_indicators"%py) by done.
    rewrite lookup_insert_eq.
    rewrite !elem_of_cons, elem_of_nil. intros [-> | [-> | [-> | []]]]; done.
Qed.

Section separate_agents.
Context `{Builtins}.

Lemma track_all_apart (b : AnalyticsAgent.t) (calls : list (pystr * pystr)) :
  forall h tr (a : AnalyticsAgent.t) (ma mb : Metrics.t),
    Metrics.of_agent h a = Some ma ->
    Metrics.of_agent h b = Some mb ->
    (forall l, l ∈ footprint h a -> l ∉ footprint h b) ->
    exists h' mb',
      track_all b calls (World h tr) = (Ok tt, World h' tr)
      /\ Metrics.of_agent h' a = Some ma
      /\ Metrics.of_agent h' b = Some mb'
      /\ Metrics.total_messages mb'
         = Metrics.total_messages mb + Z.of_nat (length calls).
Proof.
  induction calls as [|[user_msg bot_response] calls IH];
    intros h tr a ma mb Ha Hb Hapart.
  - exists h, mb. simpl. repeat split; try done. lia.
  - destruct (track_conversation_footprint b user_msg bot_response h tr mb Hb)
      as (h1 & Hrun & Hb1 & Hlists & Hframe).
    destruct (metrics_agree_on_footprint h h1 a ma Ha) as [Ha1 Hfa].
    { intros l Hl. apply Hframe. by apply Hapart. }
    assert (Hfb : footprint h1 b = footprint h b).
    { unfold footprint. by rewrite Hlists. }
    destruct (IH h1 tr a ma _ Ha1 Hb1) as (h' & mb' & Hall & Ha' & Hb' & Ht).
    { intros l. rewrite Hfa, Hfb. apply Hapart. }
    exists h', mb'. cbn [track_all]. erewrite bind_run by exact Hrun.
    split; [exact Hall|]. split; [exact Ha'|]. split; [exact Hb'|].
    rewrite Ht. cbn [tracked Metrics.total_messages length]. lia.
Qed.

(** X7. Two agents never share metrics. Construct an agent and let it
    track a conversation; construct a second agent and let that one track
    any conversation: the metrics of the first read exactly as they did
    before the second agent existed, and the second counts its own calls
    from zero. *)
Theorem agents_do_not_share_metrics (w0 : world)
        (calls_a calls_b : list (pystr * pystr)) :
  exists a w1 w2 ma b w3 w4 mb,
    AnalyticsAgent.init w0 = (Ok a, w1)
    /\ track_all a calls_a w1 = (Ok tt, w2)
    /\ Metrics.of_agent (w_heap w2) a = Some ma
    /\ AnalyticsAgent.init w2 = (Ok b, w3)
    /\ track_all b calls_b w3 = (Ok tt, w4)
    /\ Metrics.of_agent (w_heap w4) a = Some ma
    /\ Metrics.of_agent (w_heap w4) b = Some mb
    /\ Metrics.total_messages mb = Z.of_nat (length calls_b).
Proof.
  destruct w0 as [h0 tr].
  destruct (analytics_init_run h0 tr) as (a & h1 & Hinit_a & Ha1 & _).
  destruct (track_all_run a calls_a h1 tr no_metrics Ha1)
    as (h2 & ma & Hall_a & Ha2 & _).
  destruct (analytics_init_fresh h2 tr) as (b & h3 & Hinit_b & Hb3 & Hkeep & Hfresh).
  assert (Hlive : forall l, l ∈ footprint h2 a -> is_Some (h2 !! l)).
  { intros l Hl. pose proof Ha2 as Hinv. unfold Metrics.of_agent in Hinv.
    apply metrics_lists_inv in Hinv
      as (d & ls & lc & Hlists & Hl2 & _ & _ & _ & _ & _ & _ & Hls & Hlc).
    unfold footprint in Hl. rewrite Hlists in Hl.
    rewrite !elem_of_cons, elem_of_nil in Hl.
    destruct Hl as [-> | [-> | [-> | []]]]; eauto. }
  destruct (metrics_agree_on_footprint h2 h3 a ma Ha2) as [Ha3 Hfa].
  { intros l Hl. apply Hkeep. by apply Hlive. }
  destruct (track_all_apart b calls_b h3 tr a ma no_metrics Ha3 Hb3)
    as (h4 & mb & Hall_b & Ha4 & Hb4 & Ht).
  { intros l Hl Hlb. rewrite Hfa in Hl.
    destruct (Hlive l Hl) as [o Ho]. rewrite (Hfresh l Hlb) in Ho. discriminate. }
  exists a, (World h1 tr), (World h2 tr), ma, b, (World h3 tr), (World h4 tr), mb.
  repeat split; first [done | rewrite Ht; simpl; lia].
Qed.

End separate_agents.

(** ** Mappings handed out by get_metrics *)

Lemma get_metrics_inv (self : AnalyticsAgent.t) h tr (returned : loc) h1 tr1 :
  AnalyticsAgent.get_metrics self (World h tr) = (Ok returned, World h1 tr1) ->
  exists o,
    h !! AnalyticsAgent.conversation_metrics self = Some o
    /\ h !! returned = None
    /\ h1 = <[returned := o]> h
    /\ tr1 = tr.
Proof.
  intros Hrun.
  destruct (h !! AnalyticsAgent.conversation_metrics self) as [o|] eqn:Hl.
  - destruct (get_metrics_run self h tr o Hl) as (r & Hrun' & Hfresh).
    rewrite Hrun' in Hrun. injection Hrun as -> <- <-. by exists o.
  - unfold AnalyticsAgent.get_metrics, AnalyticsAgent.deref in Hrun.
    unfold_monad. simpl in Hrun. rewrite Hl in Hrun. discriminate.
Qed.

Lemma footprint_live (h : heap) (self : AnalyticsAgent.t) (m : Metrics.t) :
  Metrics.of_agent h self = Some m ->
  forall l, l ∈ footprint h self -> is_Some (h !! l).
Proof.
  intros Hm l Hl. unfold Metrics.of_agent in Hm.
  apply metrics_lists_inv in Hm
    as (d & ls & lc & Hlists & Hl2 & _ & _ & _ & _ & _ & _ & Hls & Hlc).
  unfold footprint in Hl. rewrite Hlists in Hl.
  rewrite !elem_of_cons, elem_of_nil in Hl.
  destruct Hl as [-> | [-> | [-> | []]]]; eauto.
Qed.

Section handed_out.
Context `{Builtins}.

(** X8. Every call of [get_metrics] hands out a mapping of its own: two
    calls return two different objects, neither of them the agent's own
    dict, and both read as the agent's metrics do. *)
Theorem get_metrics_hands_out_new_mappings (self : AnalyticsAgent.t) h tr
        (m : Metrics.t) :
  Metrics.of_agent h self = Some m ->
  exists first h1 second h2,
    AnalyticsAgent.get_metrics self (World h tr) = (Ok first, World h1 tr)
    /\ AnalyticsAgent.get_metrics self (World h1 tr) = (Ok second, World h2 tr)
    /\ first <> second
    /\ first <> AnalyticsAgent.conversation_metrics self
    /\ second <> AnalyticsAgent.conversation_metrics self
    /\ Metrics.at_ h2 first = Some m
    /\ Metrics.at_ h2 second = Some m
    /\ Metrics.of_agent h2 self = Some m.
Proof.
  intros Hm. pose proof Hm as Hinv. unfold Metrics.of_agent in Hinv.
  apply metrics_lists_inv in Hinv
    as (d & ls & lc & _ & Hl & Ht & Hs & Hc & Hne & _ & _ & Hls & Hlc).
  set (l := AnalyticsAgent.conversation_metrics self) in *.
  destruct (get_metrics_run self h tr _ Hl) as (r1 & Hrun1 & F1).
  assert (Hl1 : <[r1 := ODict d]> h !! l = Some (ODict d)).
  { rewrite lookup_insert_ne; [done | congruence]. }
  destruct (get_metrics_run self (<[r1 := ODict d]> h) tr _ Hl1)
    as (r2 & Hrun2 & F2).
  assert (r2 <> r1). { intros ->. by rewrite lookup_insert_eq in F2. }
  rewrite lookup_insert_ne in F2 by done.
  assert (r1 <> l /\ r2 <> l /\ r1 <> ls /\ r2 <> ls /\ r1 <> lc /\ r2 <> lc)
    as (? & ? & ? & ? & ? & ?) by (repeat split; congruence).
  exists r1, (<[r1 := ODict d]> h), r2, (<[r2 := ODict d]> (<[r1 := ODict d]> h)).
  split; [exact Hrun1|]. split; [exact Hrun2|].
  split; [done|]. split; [done|]. split; [done|].
  destruct m as [n xs ys]. simpl in *.
  split; [|split]; [| |unfold Metrics.of_agent; fold l];
    (eapply metrics_at_intro with (d := d) (ls := ls) (lc := lc); try done;
     rewrite ?lookup_insert_eq; rewrite ?lookup_insert_ne by done;
     rewrite ?lookup_insert_eq; done).
Qed.

(** X9. A mapping taken before a call of [track_conversation] is half
    stale afterwards: its total_messages is still the old count, while its
    two lists show what the call appended, because the lists are the
    agent's own. *)
Theorem earlier_mapping_is_half_stale (self : AnalyticsAgent.t)
        (user_msg bot_response : pystr) h tr (m : Metrics.t)
        (returned : loc) h1 :
  Metrics.of_agent h self = Some m ->
  AnalyticsAgent.get_metrics self (World h tr) = (Ok returned, World h1 tr) ->
  exists h2,
    AnalyticsAgent.track_conversation self user_msg bot_response (World h1 tr)
    = (Ok tt, World h2 tr)
    /\ Metrics.of_agent h2 self = Some (tracked m user_msg)
    /\ Metrics.at_ h2 returned
       = Some {| Metrics.total_messages := Metrics.total_messages m;
                 Metrics.user_satisfaction :=
                   Metrics.user_satisfaction (tracked m user_msg);
                 Metrics.conversion_indicators :=
                   Metrics.conversion_indicators (tracked m user_msg) |}.
Proof.
  intros Hm Hget.
  apply get_metrics_inv in Hget as (o & Hl & Hfresh & -> & _).
  pose proof Hm as Hinv. unfold Metrics.of_agent in Hinv.
  apply metrics_lists_inv in Hinv
    as (d & ls & lc & Hlists & Hl' & Ht & Hs & Hc & Hne & _ & _ & Hls & Hlc).
  set (l := AnalyticsAgent.conversation_metrics self) in *.
  assert (o = ODict d) as -> by congruence.
  assert (returned <> l /\ returned <> ls /\ returned <> lc) as (N1 & N2 & N3)
    by (repeat split; congruence).
  set (h1 := <[returned := ODict d]> h).
  destruct (metrics_agree_on_footprint h h1 self m Hm) as [Hm1 Hfoot].
  { intros l0 Hl0. unfold h1. rewrite lookup_insert_ne; [done|].
    intros <-. destruct (footprint_live h self m Hm _ Hl0). congruence. }
  destruct (track_conversation_footprint self user_msg bot_response h1 tr m Hm1)
    as (h2 & Hrun & Hm2 & Hlists2 & Hframe).
  exists h2. split; [exact Hrun|]. split; [exact Hm2|].
  assert (Hret : h2 !! returned = Some (ODict d)).
  { rewrite Hframe; [apply lookup_insert_eq|].
    rewrite Hfoot. unfold footprint. fold l. rewrite Hlists.
    rewrite !not_elem_of_cons. repeat split; [done..|apply not_elem_of_nil]. }
  pose proof Hm2 as Hinv2. unfold Metrics.of_agent in Hinv2.
  apply metrics_lists_inv in Hinv2
    as (d2 & ls2 & lc2 & Hl2 & _ & _ & _ & _ & _ & _ & _ & Hls2 & Hlc2).
  fold l in Hlists2, Hl2.
  assert (Hl1 : metrics_lists h1 l = Some (ls, lc)).
  { unfold metrics_lists, h1. rewrite lookup_insert_ne by done.
    by rewrite Hl', Hs, Hc. }
  rewrite Hlists2, Hl1 in Hl2. injection Hl2 as <- <-.
  by eapply metrics_at_intro with (d := d) (ls := ls) (lc := lc).
Qed.

End handed_out.

Lemma only_appended_same (returned : loc) (h h' : heap) :
  (forall l, l <> returned -> h' !! l = h !! l) -> only_appended returned h h'.
Proof.
  intros Hsame l Hl. rewrite (Hsame l Hl).
  destruct (h !! l) as [[d|xs]|]; try done. exists []. by rewrite app_nil_r.
Qed.

Lemma only_appended_trans (returned : loc) (h1 h2 h3 : heap) :
  only_appended returned h1 h2 -> only_appended returned h2 h3 ->
  only_appended returned h1 h3.
Proof.
  intros H12 H23 l Hl. specialize (H12 l Hl). specialize (H23 l Hl).
  destruct (h1 !! l) as [[d|xs]|].
  - by rewrite H12 in H23.
  - destruct H12 as [more1 H12]. rewrite H12 in H23.
    destruct H23 as [more2 H23]. exists (more1 ++ more2). by rewrite app_assoc.
  - by rewrite H12 in H23.
Qed.

Section through_the_copy.
Context `{Builtins}.

Lemma getitem_same_world (l : loc) (key : pystr) (w : world) :
  snd (AnalyticsAgent.getitem l key w) = w.
Proof.
  unfold AnalyticsAgent.getitem, AnalyticsAgent.deref. unfold_monad.
  destruct (w_heap w !! l) as [[d|xs]|]; [destruct (d !! key)|..]; reflexivity.
Qed.

Lemma mutate_only_appends (returned : loc) (mu : mutation) w r w' :
  mutate returned mu w = (r, w') ->
  only_appended returned (w_heap w) (w_heap w').
Proof.
  intros Hrun. destruct mu as [key v | key | key x].
  - apply only_appended_same. by eapply (mutate_top_level_frame returned (SetItem key v)).
  - apply only_appended_same. by eapply (mutate_top_level_frame returned (DelItem key)).
  - cbn [mutate] in Hrun. unfold mbind, M_bind in Hrun.
    destruct (AnalyticsAgent.getitem returned key w) as [held w1] eqn:Hget.
    pose proof (getitem_same_world returned key w) as Hsame.
    rewrite Hget in Hsame. cbn [snd] in Hsame. subst w1.
    destruct held as [held|e].
    2: { injection Hrun as <- <-. by apply only_appended_same. }
    unfold AnalyticsAgent.append, AnalyticsAgent.deref in Hrun. unfold_monad.
    destruct held as [n|s|l']; try (injection Hrun as <- <-;
                                    by apply only_appended_same).
    destruct (w_heap w !! l') as [[d|xs]|] eqn:Hl';
      injection Hrun as <- <-; try by apply only_appended_same.
    intros l Hl. simpl. destruct (decide (l = l')) as [->|Hne].
    + rewrite Hl', lookup_insert_eq. by exists [x].
    + rewrite lookup_insert_ne by done.
      destruct (w_heap w !! l) as [[d|ys]|]; try done.
      exists []. by rewrite app_nil_r.
Qed.

Lemma mutate_all_only_appends (returned : loc) (mus : list mutation) :
  forall w r w',
    mutate_all returned mus w = (r, w') ->
    only_appended returned (w_heap w) (w_heap w').
Proof.
  induction mus as [|mu mus IH]; intros w r w' Hrun.
  - injection Hrun as <- <-. by apply only_appended_same.
  - cbn [mutate_all] in Hrun. unfold mbind, M_bind in Hrun.
    destruct (mutate returned mu w) as [[[]|e] w1] eqn:Hstep.
    + eapply only_appended_trans; [by eapply mutate_only_appends | by eapply IH].
    + injection Hrun as <- <-. by eapply mutate_only_appends.
Qed.

(** X10. What the caller of [get_metrics] can and cannot do to the agent
    through the returned mapping, by assigning, deleting and appending in
    any order: the agent's total_messages stays as it is, its dict keeps
    its shape, and its two lists keep what they held, in order, at the
    front; elements can only be added at their end. *)
Theorem returned_mapping_can_only_append (self : AnalyticsAgent.t) h tr
        (m : Metrics.t) (returned : loc) h1 (mus : list mutation) r w2 :
  Metrics.of_agent h self = Some m ->
  AnalyticsAgent.get_metrics self (World h tr) = (Ok returned, World h1 tr) ->
  mutate_all returned mus (World h1 tr) = (r, w2) ->
  exists m',
    Metrics.of_agent (w_heap w2) self = Some m'
    /\ Metrics.total_messages m' = Metrics.total_messages m
    /\ Metrics.user_satisfaction m `prefix_of` Metrics.user_satisfaction m'
    /\ Metrics.conversion_indicators m `prefix_of` Metrics.conversion_indicators m'.
Proof.
  intros Hm Hget Hmut.
  apply get_metrics_inv in Hget as (o & Hl & Hfresh & -> & _).
  apply mutate_all_only_appends in Hmut. cbn [w_heap] in Hmut.
  pose proof Hm as Hinv. unfold Metrics.of_agent in Hinv.
  apply metrics_lists_inv in Hinv
    as (d & ls & lc & _ & Hl' & Ht & Hs & Hc & Hne & _ & _ & Hls & Hlc).
  set (l := AnalyticsAgent.conversation_metrics self) in *.
  assert (returned <> l /\ returned <> ls /\ returned <> lc) as (N1 & N2 & N3)
    by (repeat split; congruence).
  pose proof (Hmut l (not_eq_sym N1)) as Hdict.
  pose proof (Hmut ls (not_eq_sym N2)) as Hsat.
  pose proof (Hmut lc (not_eq_sym N3)) as Hconv.
  rewrite lookup_insert_ne in Hdict, Hsat, Hconv by done.
  rewrite Hl' in Hdict. rewrite Hls in Hsat. rewrite Hlc in Hconv.
  destruct Hsat as [more_s Hsat]. destruct Hconv as [more_c Hconv].
  eexists {| Metrics.total_messages := Metrics.total_messages m;
             Metrics.user_satisfaction := Metrics.user_satisfaction m ++ more_s;
             Metrics.conversion_indicators :=
               Metrics.conversion_indicators m ++ more_c |}.
  split; [|split; [done|split; by eexists]].
  unfold Metrics.of_agent. fold l.
  by eapply metrics_at_intro with (d := d) (ls := ls) (lc := lc).
Qed.

End through_the_copy.

(** ** What an answer depends on *)

Section answers.
Context `{Builtins} (env : Env).

Ltac answered run delta :=
  eexists _, delta; split; [reflexivity|]; intros w; rewrite run; cbv zeta;
  repeat match goal with
         | Heq : ?o = _ |- context [match ?o with _ => _ end] => rewrite Heq
         end;
  rewrite ?extends_nil; reflexivity.

Lemma promotion_answer :
  exists s delta,
    forallb is_vector_call delta = true
    /\ forall w, PromotionSearchTool.handle env w = (Ok s, extends w delta).
Proof.
  destruct (QdrantService env) as [[]|e] eqn:Hq;
    [|answered promotion_handle_run (@nil event)].
  destruct (search_similar env PromotionSearchTool.neutral_vector 10
                           PromotionSearchTool.filters)
    as [[|first more]|e] eqn:Hs;
    [| destruct (for_each PromotionSearchTool.format_result (first :: more))
         eqn:Hf |];
    answered promotion_handle_run
             [EvSearchSimilar PromotionSearchTool.neutral_vector 10
                              PromotionSearchTool.filters].
Qed.

Lemma product_answer (self : ProductSearchTool.t) :
  exists s delta,
    forallb is_vector_call delta = true
    /\ forall w, ProductSearchTool.handle env self w = (Ok s, extends w delta).
Proof.
  destruct (QdrantService env) as [[]|e] eqn:Hq;
    [|answered product_handle_run (@nil event)].
  destruct (import_EmbeddingService env) as [[]|e] eqn:Hi;
    [|answered product_handle_run (@nil event)].
  destruct (EmbeddingService env) as [[]|e] eqn:He;
    [|answered product_handle_run (@nil event)].
  destruct (encode_query env (ProductSearchTool.query self))
    as [query_embedding|e] eqn:Henc;
    [|answered product_handle_run [EvEncodeQuery (ProductSearchTool.query self)]].
  destruct (search_similar env query_embedding (ProductSearchTool.max_results self)
                           (ProductSearchTool.filters_of self))
    as [[|first more]|e] eqn:Hs;
    [| destruct (for_each ProductSearchTool.format_result (first :: more))
         eqn:Hf |];
    answered product_handle_run
             [EvEncodeQuery (ProductSearchTool.query self);
              EvSearchSimilar query_embedding (ProductSearchTool.max_results self)
                              (ProductSearchTool.filters_of self)].
Qed.

Lemma history_answer (self : UserHistoryTool.t) :
  exists s delta,
    forallb is_relational_call delta = true
    /\ forall w, UserHistoryTool.handle env self w = (Ok s, extends w delta).
Proof.
  destruct (import_controllers env) as [[]|e] eqn:Hi;
    [|answered history_handle_run (@nil event)].
  destruct (ChatController env) as [[]|e] eqn:Hc;
    [|answered history_handle_run (@nil event)].
  destruct (get_chats_by_usuario env (UserHistoryTool.user_id self))
    as [[|latest_chat older]|e] eqn:Hchats;
    [answered history_handle_run [EvGetChatsByUsuario (UserHistoryTool.user_id self)]
    | | answered history_handle_run
                 [EvGetChatsByUsuario (UserHistoryTool.user_id self)]].
  destruct (MensajeController env) as [[]|e] eqn:Hm;
    [|answered history_handle_run
               [EvGetChatsByUsuario (UserHistoryTool.user_id self)]].
  destruct (get_mensajes_by_chat env (chat_id latest_chat)
                                 (UserHistoryTool.limit self) 0) eqn:Hmsgs;
    answered history_handle_run
             [EvGetChatsByUsuario (UserHistoryTool.user_id self);
              EvGetMensajesByChat (chat_id latest_chat)
                                  (UserHistoryTool.limit self) 0].
Qed.

Lemma knowledge_answer (msg : pystr) :
  exists s tool delta,
    is_tool_invocation tool = true
    /\ forallb is_vector_call delta = true
    /\ forall w, KnowledgeAgent.handle_message_fallback env msg w
                 = (Ok s, extends w (tool :: delta)).
Proof.
  destruct (KnowledgeAgent.asks_for_promotions msg) eqn:Hasks.
  - destruct promotion_answer as (s & delta & Hd & Hrun).
    exists s, EvPromotionSearchTool, delta. split; [done|]. split; [done|].
    intros w. by rewrite knowledge_run, Hasks, Hrun, extends_extends.
  - destruct (product_answer (ProductSearchTool.new msg)) as (s & delta & Hd & Hrun).
    exists s, (EvProductSearchTool msg None 5), delta.
    split; [done|]. split; [done|].
    intros w. by rewrite knowledge_run, Hasks, Hrun, extends_extends.
Qed.

(** X11. What a tool or the knowledge agent answers, and which calls it
    makes, depends on the collaborators and on its arguments only: not on
    the metrics, which it leaves as they are, and not on what was recorded
    before. The two search tools and the knowledge agent call the vector
    store and the embedding model and nothing else; the history tool calls
    the relational layer and nothing else. *)
Theorem answers_do_not_depend_on_the_metrics :
  (forall self, exists s delta,
      forallb is_vector_call delta = true
      /\ forall w, ProductSearchTool.handle env self w = (Ok s, extends w delta))
  /\ (exists s delta,
        forallb is_vector_call delta = true
        /\ forall w, PromotionSearchTool.handle env w = (Ok s, extends w delta))
  /\ (forall self, exists s delta,
        forallb is_relational_call delta = true
        /\ forall w, UserHistoryTool.handle env self w = (Ok s, extends w delta))
  /\ (forall msg, exists s tool delta,
        is_tool_invocation tool = true
        /\ forallb is_vector_call delta = true
        /\ forall w, KnowledgeAgent.handle_message_fallback env msg w
                     = (Ok s, extends w (tool :: delta))).
Proof.
  split; [exact product_answer|]. split; [exact promotion_answer|].
  split; [exact history_answer | exact knowledge_answer].
Qed.

End answers.

(** ** Turns of conversation *)

Lemma call_run {A} (ev : event) (callee : M A) h tr :
  call ev callee (World h tr) = callee (World h (tr ++ [ev])).
Proof. reflexivity. Qed.

Lemma bind_raise {A B} (m : M A) (k : A -> M B) w e w1 :
  m w = (Raise e, w1) -> (m ≫= k) w = (Raise e, w1).
Proof. unfold mbind, M_bind. by intros ->. Qed.

Section turns_of_conversation.
Context `{Builtins} (env : Env).

(** One turn on well-formed metrics, step by step. *)
Lemma main_turn (self : MainBaekhoAgent.t) (message : pystr) h tr (m : Metrics.t) :
  Metrics.of_agent h (MainBaekhoAgent.analytics_agent self) = Some m ->
  exists h1 knowledge_response tool delta sales_response,
    let tr1 := tr ++ [EvTrackConversation message []] in
    let tr2 := tr1 ++ tool :: delta in
    let prompt :=
      MainBaekhoAgent.context_prompt message knowledge_response sales_response in
    Metrics.of_agent h1 (MainBaekhoAgent.analytics_agent self)
    = Some (tracked m message)
    /\ (forall w, KnowledgeAgent.handle_message_fallback env message w
                  = (Ok knowledge_response, extends w (tool :: delta)))
    /\ is_tool_invocation tool = true
    /\ forallb is_vector_call delta = true
    /\ (forall w, SalesAgent.handle_message_fallback message w
                  = (Ok sales_response, w))
    /\ match llm_response_async env prompt with
       | Ok r =>
         exists h2,
           MainBaekhoAgent.pipeline env self message (World h tr)
           = (Ok r, World h2 ((tr2 ++ [EvLlmResponse prompt])
                              ++ [EvTrackConversation message r]))
           /\ Metrics.of_agent h2 (MainBaekhoAgent.analytics_agent self)
              = Some (tracked (tracked m message) message)
       | Raise e =>
         MainBaekhoAgent.pipeline env self message (World h tr)
         = (Raise e, World h1 (tr2 ++ [EvLlmResponse prompt]))
       end.
Proof.
  intros Hm. set (a := MainBaekhoAgent.analytics_agent self) in *.
  destruct (track_conversation_footprint a message [] h
              (tr ++ [EvTrackConversation message []]) m Hm)
    as (h1 & Hrun1 & Hm1 & _).
  destruct (knowledge_answer env message) as (k & tool & delta & Htool & Hdelta & Hk).
  destruct (sales_suggestion_text message) as (s & Hs).
  exists h1, k, tool, delta, s. cbv zeta.
  split; [exact Hm1|]. split; [exact Hk|]. split; [exact Htool|].
  split; [exact Hdelta|]. split; [exact Hs|].
  set (prompt := MainBaekhoAgent.context_prompt message k s).
  set (tr2 := (tr ++ [EvTrackConversation message []]) ++ tool :: delta) in *.
  destruct (llm_response_async env prompt) as [r|e] eqn:Hllm.
  - destruct (track_conversation_footprint a message r h1
                ((tr2 ++ [EvLlmResponse prompt]) ++ [EvTrackConversation message r])
                _ Hm1) as (h2 & Hrun2 & Hm2 & _).
    exists h2. split; [|exact Hm2].
    unfold MainBaekhoAgent.pipeline. fold a.
    erewrite bind_run by (rewrite call_run; exact Hrun1).
    erewrite bind_run by apply Hk.
    unfold extends. cbn [w_heap w_trace]. fold tr2.
    erewrite bind_run by apply Hs.
    cbv zeta. fold prompt.
    erewrite bind_run by (rewrite call_run; unfold lift; rewrite Hllm; reflexivity).
    erewrite bind_run by (rewrite call_run; exact Hrun2).
    reflexivity.
  - unfold MainBaekhoAgent.pipeline. fold a.
    erewrite bind_run by (rewrite call_run; exact Hrun1).
    erewrite bind_run by apply Hk.
    unfold extends. cbn [w_heap w_trace]. fold tr2.
    erewrite bind_run by apply Hs.
    cbv zeta. fold prompt.
    apply bind_raise. rewrite call_run. unfold lift. by rewrite Hllm.
Qed.

Lemma vector_calls_only (delta : list event) :
  forallb is_vector_call delta = true ->
  List.filter is_tool_invocation delta = []
  /\ List.filter is_track_conversation delta = []
  /\ List.filter is_llm_call delta = [].
Proof.
  induction delta as [|ev delta IH]; [done|].
  simpl. rewrite andb_true_iff. intros [Hev Hd].
  destruct (IH Hd) as (-> & -> & ->). by destruct ev.
Qed.

Lemma occurs_here (needle rest : pystr) : occurs needle (needle ++ rest).
Proof. by exists [], rest. Qed.

Lemma occurs_later (needle before text : pystr) :
  occurs needle text -> occurs needle (before ++ text).
Proof.
  intros (pre & post & ->). exists (before ++ pre), post. by rewrite <- app_assoc.
Qed.

Lemma prompt_embeds (message knowledge_response sales_response : pystr) :
  occurs message
    (MainBaekhoAgent.context_prompt message knowledge_response sales_response)
  /\ occurs knowledge_response
       (MainBaekhoAgent.context_prompt message knowledge_response sales_response)
  /\ occurs sales_response
       (MainBaekhoAgent.context_prompt message knowledge_response sales_response).
Proof.
  unfold MainBaekhoAgent.context_prompt.
  split; [|split].
  - do 3 apply occurs_later. apply occurs_here.
  - do 11 apply occurs_later. apply occurs_here.
  - do 19 apply occurs_later. apply occurs_here.
Qed.

(** One turn on well-formed metrics, summed up: the reply, the calls
    recorded, and the metrics left. *)
Lemma turn_summary (self : MainBaekhoAgent.t) (message : pystr) h tr
      (m : Metrics.t) :
  Metrics.of_agent h (MainBaekhoAgent.analytics_agent self) = Some m ->
  exists reply h' delta m' knowledge_response sales_response,
    MainBaekhoAgent.handle_user_message env self message (World h tr)
    = (Ok reply, World h' (tr ++ delta))
    /\ Metrics.of_agent h' (MainBaekhoAgent.analytics_agent self) = Some m'
    /\ Metrics.total_messages m'
       = Metrics.total_messages m
         + Z.of_nat (count_calls is_track_conversation delta)
    /\ (1 <= count_calls is_track_conversation delta <= 2)%nat
    /\ count_calls is_tool_invocation delta = 1%nat
    /\ List.filter is_llm_call delta
       = [EvLlmResponse (MainBaekhoAgent.context_prompt message knowledge_response
                                                       sales_response)]
    /\ (forall w, exists w',
          KnowledgeAgent.handle_message_fallback env message w
          = (Ok knowledge_response, w'))
    /\ (forall w, SalesAgent.handle_message_fallback message w
                  = (Ok sales_response, w))
    /\ ((forall prompt, exists r, llm_response_async env prompt = Ok r) ->
        count_calls is_track_conversation delta = 2%nat).
Proof.
  intros Hm.
  destruct (main_turn self message h tr m Hm)
    as (h1 & k & tool & delta & s & Hm1 & Hk & Htool & Hdelta & Hs & Hllm).
  cbv zeta in Hllm.
  destruct (vector_calls_only delta Hdelta) as (Dtool & Dtrack & Dllm).
  set (prompt := MainBaekhoAgent.context_prompt message k s) in *.
  assert (Hknow : forall w, exists w',
             KnowledgeAgent.handle_message_fallback env message w = (Ok k, w')).
  { intros w. eexists. apply Hk. }
  unfold MainBaekhoAgent.handle_user_message, count_calls.
  destruct (llm_response_async env prompt) as [r|e] eqn:Hanswer.
  - destruct Hllm as (h2 & Hrun & Hm2).
    exists r, h2,
      ([EvTrackConversation message []; tool] ++ delta
       ++ [EvLlmResponse prompt; EvTrackConversation message r]),
      (tracked (tracked m message) message), k, s.
    split.
    { erewrite try_except_ok; [reflexivity|]. rewrite Hrun. do 2 f_equal.
      rewrite <- !app_assoc. reflexivity. }
    split; [exact Hm2|].
    rewrite !List.filter_app, Dtool, Dtrack, Dllm.
    destruct tool; try discriminate Htool;
      (split; [cbn; lia|]); (split; [cbn; lia|]); (split; [reflexivity|]);
      (split; [reflexivity|]); (split; [exact Hknow|]); (split; [exact Hs|]);
      intros _; reflexivity.
  - exists MainBaekhoAgent.apology, h1,
      ([EvTrackConversation message []; tool] ++ delta ++ [EvLlmResponse prompt]),
      (tracked m message), k, s.
    split.
    { erewrite try_except_raise by exact Hllm. unfold mret, M_ret. do 2 f_equal.
      rewrite <- !app_assoc. reflexivity. }
    split; [exact Hm1|].
    rewrite !List.filter_app, Dtool, Dtrack, Dllm.
    destruct tool; try discriminate Htool;
      (split; [cbn; lia|]); (split; [cbn; lia|]); (split; [reflexivity|]);
      (split; [reflexivity|]); (split; [exact Hknow|]); (split; [exact Hs|]);
      intros Hall; destruct (Hall prompt) as [r Hr]; congruence.
Qed.

End turns_of_conversation.


Section what_a_turn_leaves.
Context `{Builtins} (env : Env).

(** X12. A turn that completes records the message twice over: on
    well-formed metrics, a message that mentions a positive keyword leaves
    "positive" in user_satisfaction two times, and one that mentions a
    conversion keyword leaves its first 50 characters in
    conversion_indicators two times; total_messages ends 2 higher. *)
Theorem completed_turn_records_indicators_twice (self : MainBaekhoAgent.t)
        (message : pystr) h tr (m : Metrics.t) (r : pystr) (w' : world) :
  Metrics.of_agent h (MainBaekhoAgent.analytics_agent self) = Some m ->
  MainBaekhoAgent.pipeline env self message (World h tr) = (Ok r, w') ->
  exists m',
    Metrics.of_agent (w_heap w') (MainBaekhoAgent.analytics_agent self) = Some m'
    /\ Metrics.total_messages m' = Metrics.total_messages m + 2
    /\ ((mentions ["gracias"%py; "perfecto"%py; "excelente"%py; "me gusta"%py]
                  (lower message)
         /\ Metrics.user_satisfaction m'
            = Metrics.user_satisfaction m
              ++ [VStr "positive"%py; VStr "positive"%py])
        \/ (~ mentions ["gracias"%py; "perfecto"%py; "excelente"%py; "me gusta"%py]
                       (lower message)
            /\ Metrics.user_satisfaction m' = Metrics.user_satisfaction m))
    /\ ((mentions ["comprar"%py; "precio"%py; "disponible"%py; "stock"%py]
                  (lower message)
         /\ Metrics.conversion_indicators m'
            = Metrics.conversion_indicators m
              ++ [VStr (take 50 message); VStr (take 50 message)])
        \/ (~ mentions ["comprar"%py; "precio"%py; "disponible"%py; "stock"%py]
                       (lower message)
            /\ Metrics.conversion_indicators m'
               = Metrics.conversion_indicators m)).
Proof.
  intros Hm Hrun.
  destruct (main_turn env self message h tr m Hm)
    as (h1 & k & tool & delta & s & _ & _ & _ & _ & _ & Hllm).
  cbv zeta in Hllm.
  destruct (llm_response_async env _) as [r0|e].
  2: { rewrite Hllm in Hrun. discriminate Hrun. }
  destruct Hllm as (h2 & Hrun2 & Hm2). rewrite Hrun2 in Hrun.
  injection Hrun as _ <-. cbn [w_heap].
  eexists. split; [exact Hm2|].
  cbn [tracked Metrics.total_messages Metrics.user_satisfaction
       Metrics.conversion_indicators].
  split; [lia|]. split.
  - destruct (any_in AnalyticsAgent.positive_indicators (lower message)) eqn:Hp.
    + left. apply any_in_spec in Hp. split; [exact Hp|]. by rewrite <- app_assoc.
    + right. apply any_in_false in Hp. split; [exact Hp|]. by rewrite !app_nil_r.
  - destruct (any_in AnalyticsAgent.conversion_indicators (lower message)) eqn:Hc.
    + left. apply any_in_spec in Hc. split; [exact Hc|]. by rewrite <- app_assoc.
    + right. apply any_in_false in Hc. split; [exact Hc|]. by rewrite !app_nil_r.
Qed.


(** X14. Every turn on well-formed metrics invokes exactly one tool and
    asks the language model exactly once. The prompt carries, word for
    word, the message of the user, the answer of the knowledge agent and
    the answer of the sales agent. *)
Theorem every_turn_asks_the_model_once (self : MainBaekhoAgent.t)
        (message : pystr) h tr (m : Metrics.t) :
  Metrics.of_agent h (MainBaekhoAgent.analytics_agent self) = Some m ->
  exists reply w' knowledge_response sales_response prompt,
    MainBaekhoAgent.handle_user_message env self message (World h tr)
    = (Ok reply, w')
    /\ (forall w0, exists w0',
          KnowledgeAgent.handle_message_fallback env message w0
          = (Ok knowledge_response, w0'))
    /\ (forall w0, SalesAgent.handle_message_fallback message w0
                   = (Ok sales_response, w0))
    /\ List.filter is_llm_call (new_events (World h tr) w')
       = [EvLlmResponse prompt]
    /\ count_calls is_tool_invocation (new_events (World h tr) w') = 1%nat
    /\ occurs message prompt
    /\ occurs knowledge_response prompt
    /\ occurs sales_response prompt.
Proof.
  intros Hm.
  destruct (turn_summary env self message h tr m Hm)
    as (reply & h' & delta & m' & k & s & Hrun & _ & _ & _ & Htool & Hllm
        & Hk & Hs & _).
  exists reply, (World h' (tr ++ delta)), k, s,
    (MainBaekhoAgent.context_prompt message k s).
  rewrite new_events_app.
  split; [exact Hrun|]. split; [exact Hk|]. split; [exact Hs|].
  split; [exact Hllm|]. split; [exact Htool|]. apply prompt_embeds.
Qed.

(** X15. A metrics dict without its "total_messages" entry silences the
    bot: [track_conversation] raises [KeyError] and changes nothing, and
    since the first tracking call stands inside the [try] and before
    everything else, [handle_user_message] answers every message with the
    apology without invoking a tool or the language model. *)
Theorem missing_counter_silences_the_bot (self : MainBaekhoAgent.t)
        (message bot_response : pystr) (h : heap) (tr : list event)
        (d : gmap pystr val) :
  h !! AnalyticsAgent.conversation_metrics (MainBaekhoAgent.analytics_agent self)
  = Some (ODict d) ->
  d !! "total_messages"%py = None ->
  AnalyticsAgent.track_conversation (MainBaekhoAgent.analytics_agent self)
    message bot_response (World h tr)
  = (Raise (KeyError "total_messages"%py), World h tr)
  /\ MainBaekhoAgent.handle_user_message env self message (World h tr)
     = (Ok "Lo siento, hubo un error procesando tu consulta. Por favor intenta de nuevo."%py,
        World h (tr ++ [EvTrackConversation message []])).
Proof.
  intros Hl Ht.
  assert (Htrack : forall response tr0,
             AnalyticsAgent.track_conversation
               (MainBaekhoAgent.analytics_agent self) message response
               (World h tr0)
             = (Raise (KeyError "total_messages"%py), World h tr0)).
  { intros response tr0. unfold AnalyticsAgent.track_conversation.
    apply bind_raise.
    unfold AnalyticsAgent.getitem, AnalyticsAgent.deref. unfold_monad.
    cbn [w_heap]. by rewrite Hl, Ht. }
  split; [apply Htrack|].
  unfold MainBaekhoAgent.handle_user_message.
  erewrite try_except_raise; [reflexivity|].
  unfold MainBaekhoAgent.pipeline. apply bind_raise.
  rewrite call_run. apply Htrack.
Qed.

End what_a_turn_leaves.

(** ** Whole conversations *)

Lemma count_calls_app (kind : event -> bool) (t1 t2 : list event) :
  count_calls kind (t1 ++ t2) = (count_calls kind t1 + count_calls kind t2)%nat.
Proof. unfold count_calls. by rewrite List.filter_app, length_app. Qed.

Section conversations_with_the_bot.
Context `{Builtins} (env : Env).

Lemma handle_all_run (self : MainBaekhoAgent.t) (messages : list pystr) :
  forall h tr (m : Metrics.t),
    Metrics.of_agent h (MainBaekhoAgent.analytics_agent self) = Some m ->
    exists replies h' delta m',
      handle_all env self messages (World h tr)
      = (Ok replies, World h' (tr ++ delta))
      /\ length replies = length messages
      /\ Metrics.of_agent h' (MainBaekhoAgent.analytics_agent self) = Some m'
      /\ Metrics.total_messages m'
         = Metrics.total_messages m
           + Z.of_nat (count_calls is_track_conversation delta)
      /\ (length messages <= count_calls is_track_conversation delta
          <= 2 * length messages)%nat
      /\ count_calls is_llm_call delta = length messages
      /\ count_calls is_tool_invocation delta = length messages
      /\ ((forall prompt, exists r, llm_response_async env prompt = Ok r) ->
          count_calls is_track_conversation delta = (2 * length messages)%nat).
Proof.
  induction messages as [|message messages IH]; intros h tr m Hm.
  - exists [], h, [], m. rewrite app_nil_r. cbn.
    repeat split; first [done | lia].
  - destruct (turn_summary env self message h tr m Hm)
      as (reply & h1 & d1 & m1 & k & s & Hrun & Hm1 & Ht1 & Hb1 & Htool1 & Hllm1
          & _ & _ & Hall1).
    destruct (IH h1 (tr ++ d1) m1 Hm1)
      as (replies & h2 & d2 & m2 & Hrest & Hlen & Hm2 & Ht2 & Hb2 & Hllm2 & Htool2
          & Hall2).
    exists (reply :: replies), h2, (d1 ++ d2), m2.
    cbn [handle_all]. erewrite bind_run by exact Hrun.
    erewrite bind_run by exact Hrest.
    rewrite !count_calls_app. cbn [length].
    assert (Hone : count_calls is_llm_call d1 = 1%nat).
    { unfold count_calls. by rewrite Hllm1. }
    split; [unfold mret, M_ret; by rewrite app_assoc|].
    split; [by rewrite Hlen|]. split; [exact Hm2|].
    split; [lia|]. split; [lia|]. split; [lia|]. split; [lia|].
    intros Hall. specialize (Hall1 Hall). specialize (Hall2 Hall). lia.
Qed.

(** X16. The counter counts calls, not messages. Create the main agent, in
    any world, and hand it any sequence of messages: every message gets a
    reply, each costs one tool invocation and one call of the language
    model, and total_messages ends as the number of [track_conversation]
    calls made, which lies between the number of messages and twice that
    number, and is exactly twice that number when the language model
    answers every prompt. *)
Theorem total_messages_counts_tracking_calls (w0 : world) (messages : list pystr) :
  exists self w1 replies w2 m,
    BaekhoAgentFactory.create_main_agent w0 = (Ok self, w1)
    /\ handle_all env self messages w1 = (Ok replies, w2)
    /\ length replies = length messages
    /\ Metrics.of_agent (w_heap w2) (MainBaekhoAgent.analytics_agent self) = Some m
    /\ Metrics.total_messages m
       = Z.of_nat (count_calls is_track_conversation (new_events w1 w2))
    /\ Z.of_nat (length messages) <= Metrics.total_messages m
       <= 2 * Z.of_nat (length messages)
    /\ count_calls is_llm_call (new_events w1 w2) = length messages
    /\ count_calls is_tool_invocation (new_events w1 w2) = length messages
    /\ ((forall prompt, exists r, llm_response_async env prompt = Ok r) ->
        Metrics.total_messages m = 2 * Z.of_nat (length messages)).
Proof.
  destruct w0 as [h0 tr].
  destruct (analytics_init_run h0 tr) as (a & h1 & Hinit & Hm1 & _).
  set (self := {| MainBaekhoAgent.analytics_agent := a |}).
  destruct (handle_all_run self messages h1 tr no_metrics Hm1)
    as (replies & h2 & delta & m & Hrun & Hlen & Hm & Ht & Hb & Hllm & Htool & Hall).
  exists self, (World h1 tr), replies, (World h2 (tr ++ delta)), m.
  rewrite new_events_app. cbn [no_metrics Metrics.total_messages] in Ht.
  split.
  { unfold BaekhoAgentFactory.create_main_agent, MainBaekhoAgent.init.
    erewrite bind_run by exact Hinit. reflexivity. }
  split; [exact Hrun|]. split; [exact Hlen|]. split; [exact Hm|].
  split; [lia|]. split; [lia|]. split; [exact Hllm|]. split; [exact Htool|].
  intros Hanswers. specialize (Hall Hanswers). lia.
Qed.

End conversations_with_the_bot.

(** ** The further properties at work *)

Lemma get_metrics_hands_out_new_mappings_witness :
  Metrics.of_agent (w_heap first_world) first_agent = Some no_metrics
  /\ exists first h1 second h2,
      AnalyticsAgent.get_metrics first_agent (World (w_heap first_world) [])
      = (Ok first, World h1 [])
      /\ AnalyticsAgent.get_metrics first_agent (World h1 [])
         = (Ok second, World h2 [])
      /\ first <> second.
Proof.
  split; [vm_compute; reflexivity|].
  destruct (@get_metrics_hands_out_new_mappings first_agent (w_heap first_world)
              [] no_metrics)
    as (first & h1 & second & h2 & Hrun1 & Hrun2 & Hne & _).
  - vm_compute; reflexivity.
  - exists first, h1, second, h2. split; [exact Hrun1|]. split; [exact Hrun2|].
    exact Hne.
Defined.

Lemma earlier_mapping_is_half_stale_witness :
  Metrics.of_agent (w_heap first_world) first_agent = Some no_metrics
  /\ AnalyticsAgent.get_metrics first_agent (World (w_heap first_world) [])
     = (Ok 4%positive, World (w_heap world_after_get_metrics) [])
  /\ exists h2,
      @AnalyticsAgent.track_conversation plain first_agent a_question []
        (World (w_heap world_after_get_metrics) [])
      = (Ok tt, World h2 [])
      /\ Metrics.at_ h2 4%positive
         = Some {| Metrics.total_messages := 0;
                   Metrics.user_satisfaction := [VStr "positive"%py];
                   Metrics.conversion_indicators := [VStr a_question] |}.
Proof.
  split; [vm_compute; reflexivity|]. split; [vm_compute; reflexivity|].
  destruct (@earlier_mapping_is_half_stale plain first_agent a_question []
              (w_heap first_world) [] no_metrics 4%positive
              (w_heap world_after_get_metrics))
    as (h2 & Hrun & _ & Hstale).
  - vm_compute; reflexivity.
  - vm_compute; reflexivity.
  - exists h2. split; [exact Hrun | exact Hstale].
Defined.

Lemma returned_mapping_can_only_append_witness :
  Metrics.of_agent (w_heap first_world) first_agent = Some no_metrics
  /\ AnalyticsAgent.get_metrics first_agent (World (w_heap first_world) [])
     = (Ok 4%positive, World (w_heap world_after_get_metrics) [])
  /\ @mutate_all plain 4%positive caller_appends
       (World (w_heap world_after_get_metrics) [])
     = (Ok tt, world_after_append)
  /\ exists m',
      Metrics.of_agent (w_heap world_after_append) first_agent = Some m'
      /\ Metrics.total_messages m' = 0.
Proof.
  split; [vm_compute; reflexivity|]. split; [vm_compute; reflexivity|].
  split; [vm_compute; reflexivity|].
  destruct (@returned_mapping_can_only_append plain first_agent
              (w_heap first_world) [] no_metrics 4%positive
              (w_heap world_after_get_metrics) caller_appends (Ok tt)
              world_after_append)
    as (m' & Hm' & Htotal & _).
  - vm_compute; reflexivity.
  - vm_compute; reflexivity.
  - vm_compute; reflexivity.
  - exists m'. split; [exact Hm' | exact Htotal].
Defined.

Lemma completed_turn_records_indicators_twice_witness :
  Metrics.of_agent (w_heap first_world) first_agent = Some no_metrics
  /\ @MainBaekhoAgent.pipeline plain quiet_env first_main_agent a_question
       (World (w_heap first_world) [])
     = (Ok "Hola, soy BaekhoBot."%py, world_after_question)
  /\ exists m',
      Metrics.of_agent (w_heap world_after_question) first_agent = Some m'
      /\ Metrics.total_messages m' = 0 + 2.
Proof.
  split; [vm_compute; reflexivity|]. split; [vm_compute; reflexivity|].
  destruct (@completed_turn_records_indicators_twice plain quiet_env
              first_main_agent a_question (w_heap first_world) [] no_metrics
              "Hola, soy BaekhoBot."%py world_after_question)
    as (m' & Hm' & Htotal & _).
  - vm_compute; reflexivity.
  - vm_compute; reflexivity.
  - exists m'. split; [exact Hm' | exact Htotal].
Defined.


Lemma every_turn_asks_the_model_once_witness :
  Metrics.of_agent (w_heap first_world) first_agent = Some no_metrics
  /\ exists reply w' prompt,
      @MainBaekhoAgent.handle_user_message plain quiet_env first_main_agent
        a_question (World (w_heap first_world) [])
      = (Ok reply, w')
      /\ List.filter is_llm_call (new_events (World (w_heap first_world) []) w')
         = [EvLlmResponse prompt]
      /\ occurs a_question prompt.
Proof.
  split; [vm_compute; reflexivity|].
  destruct (@every_turn_asks_the_model_once plain quiet_env first_main_agent
              a_question (w_heap first_world) [] no_metrics)
    as (reply & w' & k & s & prompt & Hrun & _ & _ & Hllm & _ & Hmsg & _).
  - vm_compute; reflexivity.
  - exists reply, w', prompt. split; [exact Hrun|]. split; [exact Hllm | exact Hmsg].
Defined.

Lemma missing_counter_silences_the_bot_witness :
  w_heap cleared_world !! AnalyticsAgent.conversation_metrics cleared_agent
  = Some (ODict ∅)
  /\ (∅ : gmap pystr val) !! "total_messages"%py = None
  /\ @MainBaekhoAgent.handle_user_message plain quiet_env
       {| MainBaekhoAgent.analytics_agent := cleared_agent |} a_question
       (World (w_heap cleared_world) [])
     = (Ok MainBaekhoAgent.apology,
        World (w_heap cleared_world) ([] ++ [EvTrackConversation a_question []])).
Proof.
  split; [vm_compute; reflexivity|]. split; [reflexivity|].
  apply (@missing_counter_silences_the_bot plain quiet_env
           {| MainBaekhoAgent.analytics_agent := cleared_agent |}
           a_question [] (w_heap cleared_world) [] ∅).
  - vm_compute; reflexivity.
  - reflexivity.
Defined.

(** ** The reply or the apology *)

Section reply_or_apology.
Context `{Builtins} (env : Env).

(** C7. [handle_user_message] returns the reply of the language model on
    success and the fixed apology on an exception, and never raises. An
    exception is an instance of [Exception], which is what the [except]
    clause catches. On well-formed metrics the knowledge agent and the
    sales agent give their answers, the prompt is built from the message
    and these two answers, and the language model is asked: when it
    answers, its reply is what [handle_user_message] returns; when it
    raises, the apology is. In any state whatever: the method returns a
    text; a body of the [try] that raises, wherever it does, gives the
    apology; and a body that completes gives the reply of the model to
    that same prompt. *)
Theorem main_returns_reply_or_apology (self : MainBaekhoAgent.t)
        (message : pystr) (h : heap) (tr : list event) (m : Metrics.t) :
  Metrics.of_agent h (MainBaekhoAgent.analytics_agent self) = Some m ->
  exists knowledge_response sales_response,
    (forall w0, exists w0',
        KnowledgeAgent.handle_message_fallback env message w0
        = (Ok knowledge_response, w0'))
    /\ (forall w0, SalesAgent.handle_message_fallback message w0
                   = (Ok sales_response, w0))
    /\ match llm_response_async env
              (MainBaekhoAgent.context_prompt message knowledge_response
                                              sales_response) with
       | Ok final_response =>
         exists w',
           MainBaekhoAgent.pipeline env self message (World h tr)
           = (Ok final_response, w')
           /\ MainBaekhoAgent.handle_user_message env self message (World h tr)
              = (Ok final_response, w')
       | Raise e =>
         exists w',
           MainBaekhoAgent.pipeline env self message (World h tr) = (Raise e, w')
           /\ MainBaekhoAgent.handle_user_message env self message (World h tr)
              = (Ok "Lo siento, hubo un error procesando tu consulta. Por favor intenta de nuevo."%py,
                 w')
       end
    /\ (forall w0, exists s w0',
          MainBaekhoAgent.handle_user_message env self message w0 = (Ok s, w0'))
    /\ (forall w0 e w0',
          MainBaekhoAgent.pipeline env self message w0 = (Raise e, w0') ->
          MainBaekhoAgent.handle_user_message env self message w0
          = (Ok "Lo siento, hubo un error procesando tu consulta. Por favor intenta de nuevo."%py,
             w0'))
    /\ (forall w0 r w0',
          MainBaekhoAgent.pipeline env self message w0 = (Ok r, w0') ->
          MainBaekhoAgent.handle_user_message env self message w0 = (Ok r, w0')
          /\ llm_response_async env
               (MainBaekhoAgent.context_prompt message knowledge_response
                                               sales_response)
             = Ok r).
Proof.
  intros Hm.
  destruct (main_turn env self message h tr m Hm)
    as (h1 & k & tool & delta & s & _ & Hk & _ & _ & Hs & Hllm).
  cbv zeta in Hllm.
  assert (Hraise : forall w0 e w0',
             MainBaekhoAgent.pipeline env self message w0 = (Raise e, w0') ->
             MainBaekhoAgent.handle_user_message env self message w0
             = (Ok MainBaekhoAgent.apology, w0')).
  { intros w0 e w0' Hrun. unfold MainBaekhoAgent.handle_user_message.
    by rewrite (try_except_raise _ _ _ _ _ Hrun). }
  assert (Hok : forall w0 r w0',
             MainBaekhoAgent.pipeline env self message w0 = (Ok r, w0') ->
             MainBaekhoAgent.handle_user_message env self message w0 = (Ok r, w0')).
  { intros w0 r w0' Hrun. unfold MainBaekhoAgent.handle_user_message.
    by apply try_except_ok. }
  exists k, s.
  split; [intros w0; eexists; apply Hk|]. split; [exact Hs|].
  split; [|split; [|split]].
  - destruct (llm_response_async env _) as [r|e].
    + destruct Hllm as (h2 & Hrun & _). eexists. split; [exact Hrun|].
      by apply Hok.
    + eexists. split; [exact Hllm|]. by apply (Hraise _ e).
  - intros w0.
    destruct (MainBaekhoAgent.pipeline env self message w0) as [[r|e] w0'] eqn:Hrun.
    + exists r, w0'. by apply Hok.
    + exists MainBaekhoAgent.apology, w0'. by apply (Hraise _ e).
  - exact Hraise.
  - intros [h0 tr0] r w0' Hrun. split; [by apply Hok|].
    apply pipeline_ok in Hrun
      as (h1' & h2' & k' & s' & tool' & delta' & _ & Hk' & _ & _ & Hs' & Hanswer & _).
    cbv zeta in Hk', Hs', Hanswer.
    rewrite Hk in Hk'. injection Hk' as <- _.
    rewrite Hs in Hs'. injection Hs' as <-.
    exact Hanswer.
Qed.

End reply_or_apology.

Lemma main_returns_reply_or_apology_witness :
  Metrics.of_agent (w_heap first_world) first_agent = Some no_metrics
  /\ (exists w',
         @MainBaekhoAgent.handle_user_message plain quiet_env first_main_agent
           a_question (World (w_heap first_world) [])
         = (Ok "Hola, soy BaekhoBot."%py, w'))
  /\ (exists w',
         @MainBaekhoAgent.handle_user_message plain search_down_env
           first_main_agent a_question (World (w_heap first_world) [])
         = (Ok "Lo siento, hubo un error procesando tu consulta. Por favor intenta de nuevo."%py,
            w')).
Proof.
  split; [vm_compute; reflexivity|]. split.
  - destruct (@main_returns_reply_or_apology plain quiet_env first_main_agent
                a_question (w_heap first_world) [] no_metrics)
      as (k & s & _ & _ & Hreply & _).
    + vm_compute; reflexivity.
    + cbn [llm_response_async quiet_env] in Hreply.
      destruct Hreply as (w' & _ & Hrun). exists w'. exact Hrun.
  - destruct (@main_returns_reply_or_apology plain search_down_env
                first_main_agent a_question (w_heap first_world) [] no_metrics)
      as (k & s & _ & _ & Hsorry & _).
    + vm_compute; reflexivity.
    + cbn [llm_response_async search_down_env] in Hsorry.
      destruct Hsorry as (w' & _ & Hrun). exists w'. exact Hrun.
Defined.
